(** * FactoryForge: the MachineUI schema fix workflow

    A shallow embedding of [automate-machine-ui-fixes.py].  The script
    loads JSON files, asks a remote service to test or reload a schema,
    matches substrings of the reported errors against a fixed rule list and
    renders a prompt file.

    Conventions of the embedding:
    - a Python [str] is a [string]; each character stands for one code
      point below 256 (the marks in front of three printed messages lie
      above and are kept as the bytes of their UTF-8 form);
    - the values the script handles come out of [json.load] or of dict and
      list displays, so one type [json] covers them; numbers are integers
      (floating-point literals are outside the model);
    - a dict is an association list in insertion order with distinct keys;
    - an exception is a value of [exn]; a call that may raise returns a
      [result];
    - files, standard output and standard error form a [world] that is
      threaded through every method;
    - the remote service is a function from requests to replies; the
      request id, a wall-clock stamp, and the timeout are left out;
    - a machine type is a plain file name: the path of a file is the
      directory, a slash and the name;
    - what the interpreter and the system decide are parameters: where
      [json.dump] stops on a document handed to [save_schema], and, for the
      loaders of the module [Examined], which paths the system refuses to
      look at.

    The command-line entry point [main] takes the argument vector and
    returns the exit status; creating the output directory in [__init__]
    either goes through or raises, as a parameter of the model says. *)

From Stdlib Require Import ZArith Ascii String Decimal DecimalString DecimalN DecimalFacts Lia.
From stdpp Require Import base gmap strings list.

Local Open Scope Z_scope.

(** ** Characters and strings *)

Definition LF : string := String "010"%char "".
Definition code (c : ascii) : N := N_of_ascii c.

(** [needle in haystack] on strings *)
Fixpoint contains (needle haystack : string) : bool :=
  String.prefix needle haystack ||
  match haystack with
  | EmptyString => false
  | String _ rest => contains needle rest
  end.

(** [str.lower] on one code point below 256: A-Z and the upper-case
    letters U+00C0..U+00DE (all but the multiplication sign U+00D7) move up
    by 32. *)
Definition lower_char (c : ascii) : ascii :=
  let n := code c in
  if ((65 <=? n) && (n <=? 90))%N then ascii_of_N (n + 32)
  else if ((192 <=? n) && (n <=? 222) && negb (n =? 215))%N then ascii_of_N (n + 32)
  else c.

Fixpoint lower (s : string) : string :=
  match s with
  | EmptyString => EmptyString
  | String c rest => String (lower_char c) (lower rest)
  end.

(** [s * n] *)
Fixpoint repeat_string (s : string) (n : nat) : string :=
  match n with
  | O => ""
  | S k => s +:+ repeat_string s k
  end.

(** [s[:n]] *)
Definition take_string (n : nat) (s : string) : string := String.substring 0 n s.

Definition hex_digit (n : N) : ascii :=
  ascii_of_N (if (n <? 10)%N then 48 + n else 87 + n).

(** [str(n)] for an integer *)
Definition string_of_N (n : N) : string := NilEmpty.string_of_uint (N.to_uint n).

Definition string_of_Z (z : Z) : string :=
  if z <? 0 then "-" +:+ string_of_N (Z.to_N (- z)) else string_of_N (Z.to_N z).

(** ** Values *)

Unset Elimination Schemes.
Inductive json : Type :=
| JNull
| JBool (b : bool)
| JInt (z : Z)
| JStr (s : string)
| JList (items : list json)
| JObj (members : list (string * json)).
Set Elimination Schemes.

(** [d[k]] as a lookup, and [d[k] = v] as an update that keeps the position
    of a key already present *)
Fixpoint dict_lookup (members : list (string * json)) (k : string) : option json :=
  match members with
  | [] => None
  | (k', v) :: rest => if String.eqb k' k then Some v else dict_lookup rest k
  end.

Fixpoint dict_set (members : list (string * json)) (k : string) (v : json)
  : list (string * json) :=
  match members with
  | [] => [(k, v)]
  | (k', v') :: rest =>
      if String.eqb k' k then (k', v) :: rest else (k', v') :: dict_set rest k v
  end.

Definition dict_has (members : list (string * json)) (k : string) : bool :=
  match dict_lookup members k with Some _ => true | None => false end.

(** Exceptions the script can meet. *)
Inductive exn : Type :=
| KeyError (key : string)
| AttributeError (msg : string)
| TypeError (msg : string)
| ValueError (msg : string)
| JSONDecodeError
| OSError (msg : string)
| RequestException (msg : string).

Inductive result (A : Type) : Type :=
| Ok (a : A)
| Raise (e : exn).
Arguments Ok {A} a.
Arguments Raise {A} e.

Definition rbind {A B} (r : result A) (k : A -> result B) : result B :=
  match r with
  | Ok a => k a
  | Raise e => Raise e
  end.

Declare Scope result_scope.
Delimit Scope result_scope with res.
Notation "x <-? r ; k" := (rbind r (fun x => k))
  (at level 100, r at next level, right associativity) : result_scope.

(** [type(v).__name__] *)
Definition type_name (v : json) : string :=
  match v with
  | JNull => "NoneType"
  | JBool _ => "bool"
  | JInt _ => "int"
  | JStr _ => "str"
  | JList _ => "list"
  | JObj _ => "dict"
  end.

Definition no_attribute (v : json) (attr : string) : exn :=
  AttributeError ("'" +:+ type_name v +:+ "' object has no attribute '" +:+ attr +:+ "'").

(** [bool(v)] *)
Definition truthy (v : json) : bool :=
  match v with
  | JNull => false
  | JBool b => b
  | JInt z => negb (z =? 0)
  | JStr s => negb (String.eqb s "")
  | JList items => match items with [] => false | _ => true end
  | JObj members => match members with [] => false | _ => true end
  end.

(** [v.get(k, default)] *)
Definition py_get (v : json) (k : string) (default : json) : result json :=
  match v with
  | JObj members =>
      Ok (match dict_lookup members k with Some x => x | None => default end)
  | _ => Raise (no_attribute v "get")
  end.

(** [v[k]] for a string [k] *)
Definition py_getitem (v : json) (k : string) : result json :=
  match v with
  | JObj members =>
      match dict_lookup members k with
      | Some x => Ok x
      | None => Raise (KeyError k)
      end
  | JList _ => Raise (TypeError "list indices must be integers or slices, not str")
  | JStr _ => Raise (TypeError "string indices must be integers, not 'str'")
  | _ => Raise (TypeError ("'" +:+ type_name v +:+ "' object is not subscriptable"))
  end.

Definition chars (s : string) : list json :=
  (fun c => JStr (String c "")) <$> list_ascii_of_string s.

(** the items a [for] loop over [v] visits *)
Definition py_iter (v : json) : result (list json) :=
  match v with
  | JList items => Ok items
  | JStr s => Ok (chars s)
  | JObj members => Ok ((fun kv => JStr (fst kv)) <$> members)
  | _ => Raise (TypeError ("'" +:+ type_name v +:+ "' object is not iterable"))
  end.

(** [len(v)] *)
Definition py_len (v : json) : result Z :=
  match v with
  | JList items => Ok (Z.of_nat (length items))
  | JStr s => Ok (Z.of_nat (String.length s))
  | JObj members => Ok (Z.of_nat (length members))
  | _ => Raise (TypeError ("object of type '" +:+ type_name v +:+ "' has no len()"))
  end.

Definition is_str (k : string) (v : json) : bool :=
  match v with JStr s => String.eqb s k | _ => false end.

(** [k in v] for a string [k] *)
Definition py_in (k : string) (v : json) : result bool :=
  match v with
  | JObj members => Ok (dict_has members k)
  | JList items => Ok (existsb (is_str k) items)
  | JStr s => Ok (contains k s)
  | _ => Raise (TypeError ("argument of type '" +:+ type_name v +:+ "' is not iterable"))
  end.

(** [v.lower()] *)
Definition py_lower (v : json) : result string :=
  match v with
  | JStr s => Ok (lower s)
  | _ => Raise (no_attribute v "lower")
  end.

(** ** Rendering values *)

(** [repr(s)] for a string: single quotes unless the string holds a single
    quote and no double quote; the quote and the backslash are escaped,
    tab, line feed and carriage return are written with their letters, and
    any other code point that is not printable becomes [\xNN]. *)
Definition printable (c : ascii) : bool :=
  let n := code c in
  (((32 <=? n) && (n <? 127)) || ((161 <=? n) && negb (n =? 173)))%N.

Definition repr_char (quote c : ascii) : string :=
  let n := code c in
  if Ascii.eqb c quote || Ascii.eqb c "\"%char then String "\" (String c "")
  else if (n =? 9)%N then "\t"
  else if (n =? 10)%N then "\n"
  else if (n =? 13)%N then "\r"
  else if printable c then String c ""
  else "\x" +:+ String (hex_digit (n / 16)) (String (hex_digit (n mod 16)) "").

Fixpoint repr_chars (quote : ascii) (s : string) : string :=
  match s with
  | EmptyString => ""
  | String c rest => repr_char quote c +:+ repr_chars quote rest
  end.

Definition repr_string (s : string) : string :=
  let quote :=
    if contains "'" s && negb (contains (String "034" "") s)
    then "034"%char else "'"%char in
  String quote (repr_chars quote s +:+ String quote "").

(** [repr(v)] *)
Fixpoint py_repr (v : json) : string :=
  match v with
  | JNull => "None"
  | JBool true => "True"
  | JBool false => "False"
  | JInt z => string_of_Z z
  | JStr s => repr_string s
  | JList items =>
      "[" +:+
      (fix go (first : bool) (l : list json) : string :=
         match l with
         | [] => ""
         | x :: l' => (if first then "" else ", ") +:+ py_repr x +:+ go false l'
         end) true items +:+ "]"
  | JObj members =>
      "{" +:+
      (fix go (first : bool) (l : list (string * json)) : string :=
         match l with
         | [] => ""
         | (k, x) :: l' =>
             (if first then "" else ", ") +:+ repr_string k +:+ ": " +:+ py_repr x
             +:+ go false l'
         end) true members +:+ "}"
  end.

(** [str(v)], what an f-string field shows *)
Definition py_str (v : json) : string :=
  match v with
  | JStr s => s
  | _ => py_repr v
  end.

(** [str(e)] for a caught exception.  The text of a [JSONDecodeError]
    carries a position that is not modelled; no handler of the script ever
    sees one. *)
Definition exn_str (e : exn) : string :=
  match e with
  | KeyError key => repr_string key
  | AttributeError msg | TypeError msg | ValueError msg | OSError msg
  | RequestException msg => msg
  | JSONDecodeError => "JSONDecodeError"
  end.

(** ** [json.dumps(v, indent=2)] *)

(** One character of a string literal; [ensure_ascii] is on, so everything
    outside the printable ASCII range is written as [\u00XX]. *)
Definition encode_char (c : ascii) : string :=
  let n := code c in
  if (n =? 34)%N then String "\" (String "034" "")
  else if (n =? 92)%N then "\\"
  else if (n =? 10)%N then "\n"
  else if (n =? 13)%N then "\r"
  else if (n =? 9)%N then "\t"
  else if (n =? 8)%N then "\b"
  else if (n =? 12)%N then "\f"
  else if ((n <? 32) || (126 <? n))%N then
    "\u00" +:+ String (hex_digit (n / 16)) (String (hex_digit (n mod 16)) "")
  else String c "".

Fixpoint encode_chars (s : string) : string :=
  match s with
  | EmptyString => ""
  | String c rest => encode_char c +:+ encode_chars rest
  end.

Definition encode_string (s : string) : string :=
  String "034" (encode_chars s +:+ String "034" "").

(** a line break followed by the indentation of nesting level [lvl] *)
Definition newline_indent (lvl : nat) : string := LF +:+ repeat_string "  " lvl.

Fixpoint dumps_at (lvl : nat) (v : json) : string :=
  match v with
  | JNull => "null"
  | JBool true => "true"
  | JBool false => "false"
  | JInt z => string_of_Z z
  | JStr s => encode_string s
  | JList [] => "[]"
  | JList items =>
      "[" +:+
      (fix go (first : bool) (l : list json) : string :=
         match l with
         | [] => ""
         | x :: l' =>
             (if first then "" else ",") +:+ newline_indent (S lvl)
             +:+ dumps_at (S lvl) x +:+ go false l'
         end) true items +:+ newline_indent lvl +:+ "]"
  | JObj [] => "{}"
  | JObj members =>
      "{" +:+
      (fix go (first : bool) (l : list (string * json)) : string :=
         match l with
         | [] => ""
         | (k, x) :: l' =>
             (if first then "" else ",") +:+ newline_indent (S lvl)
             +:+ encode_string k +:+ ": " +:+ dumps_at (S lvl) x +:+ go false l'
         end) true members +:+ newline_indent lvl +:+ "}"
  end.

Definition dumps (v : json) : string := dumps_at 0 v.

(** ** [json.loads] *)

Definition is_ws (c : ascii) : bool :=
  let n := code c in ((n =? 32) || (n =? 9) || (n =? 10) || (n =? 13))%N.

Fixpoint skip_ws (s : string) : string :=
  match s with
  | EmptyString => EmptyString
  | String c rest => if is_ws c then skip_ws rest else s
  end.

Definition is_digit (c : ascii) : bool :=
  let n := code c in ((48 <=? n) && (n <=? 57))%N.

Definition digit_of_char (c : ascii) : option (uint -> uint) :=
  match c with
  | "0" => Some D0 | "1" => Some D1 | "2" => Some D2 | "3" => Some D3
  | "4" => Some D4 | "5" => Some D5 | "6" => Some D6 | "7" => Some D7
  | "8" => Some D8 | "9" => Some D9
  | _ => None
  end%char.

(** the longest run of decimal digits at the head of [s] *)
Fixpoint read_uint (s : string) : uint * string :=
  match s with
  | EmptyString => (Nil, EmptyString)
  | String c rest =>
      match digit_of_char c with
      | Some d => let (u, r) := read_uint rest in (d u, r)
      | None => (Nil, s)
      end
  end.

Definition starts_fraction (s : string) : bool :=
  match s with
  | String c _ => let n := code c in ((n =? 46) || (n =? 101) || (n =? 69))%N
  | EmptyString => false
  end.

(** An integer literal: an optional minus sign, then [0] or a run of
    digits with no leading zero.  A fraction or exponent would make the
    number a float and is refused. *)
Definition scan_int (s : string) : option (Z * string) :=
  let (negative, body) :=
    match s with
    | String "-" r => (true, r)
    | _ => (false, s)
    end in
  let (u, r) := read_uint body in
  match u with
  | Nil => None
  | D0 (D0 _ | D1 _ | D2 _ | D3 _ | D4 _ | D5 _ | D6 _ | D7 _ | D8 _ | D9 _) => None
  | _ =>
      if starts_fraction r then None
      else
        let n := Z.of_N (N.of_uint u) in
        Some (if negative then - n else n, r)
  end.

Definition hex_value (c : ascii) : option N :=
  let n := code c in
  if ((48 <=? n) && (n <=? 57))%N then Some (n - 48)%N
  else if ((97 <=? n) && (n <=? 102))%N then Some (n - 87)%N
  else if ((65 <=? n) && (n <=? 70))%N then Some (n - 55)%N
  else None.

(** the code point of [\uXXXX], when it is below 256 *)
Definition unicode_escape (h1 h2 h3 h4 : ascii) : option ascii :=
  match hex_value h1, hex_value h2, hex_value h3, hex_value h4 with
  | Some 0%N, Some 0%N, Some a, Some b => Some (ascii_of_N (16 * a + b))
  | _, _, _, _ => None
  end.

Definition simple_escape (c : ascii) : option ascii :=
  match c with
  | "034" => Some "034" | "\" => Some "\" | "/" => Some "/"
  | "b" => Some "008" | "f" => Some "012" | "n" => Some "010"
  | "r" => Some "013" | "t" => Some "009"
  | _ => None
  end%char.

Definition prepend (c : ascii) (r : option (string * string)) : option (string * string) :=
  match r with
  | Some (s, rest) => Some (String c s, rest)
  | None => None
  end.

(** the body of a string literal, after its opening quote *)
Fixpoint scan_string (s : string) : option (string * string) :=
  match s with
  | EmptyString => None
  | String c rest =>
      if Ascii.eqb c "034" then Some (EmptyString, rest)
      else if Ascii.eqb c "\" then
        match rest with
        | String "u" (String h1 (String h2 (String h3 (String h4 rest')))) =>
            match unicode_escape h1 h2 h3 h4 with
            | Some ch => prepend ch (scan_string rest')
            | None => None
            end
        | String e rest' =>
            match simple_escape e with
            | Some ch => prepend ch (scan_string rest')
            | None => None
            end
        | EmptyString => None
        end
      else if (code c <? 32)%N then None
      else prepend c (scan_string rest)
  end.

Fixpoint strip_prefix (p s : string) : option string :=
  match p, s with
  | EmptyString, _ => Some s
  | String a p', String b s' => if Ascii.eqb a b then strip_prefix p' s' else None
  | String _ _, EmptyString => None
  end.

(** the items of an array, from its first value to the closing bracket *)
Fixpoint parse_items (value : string -> option (json * string)) (fuel : nat)
    (s : string) : option (list json * string) :=
  match fuel with
  | O => None
  | S fuel' =>
      match value s with
      | None => None
      | Some (v, r) =>
          match skip_ws r with
          | String "," r' =>
              match parse_items value fuel' (skip_ws r') with
              | Some (vs, r'') => Some (v :: vs, r'')
              | None => None
              end
          | String "]" r' => Some ([v], r')
          | _ => None
          end
      end
  end.

(** the members of an object, from its first key to the closing brace *)
Fixpoint parse_members (value : string -> option (json * string)) (fuel : nat)
    (s : string) : option (list (string * json) * string) :=
  match fuel with
  | O => None
  | S fuel' =>
      match s with
      | String "034" body =>
          match scan_string body with
          | None => None
          | Some (k, r0) =>
              match skip_ws r0 with
              | String ":" r1 =>
                  match value (skip_ws r1) with
                  | None => None
                  | Some (v, r) =>
                      match skip_ws r with
                      | String "," r' =>
                          match parse_members value fuel' (skip_ws r') with
                          | Some (kvs, r'') => Some ((k, v) :: kvs, r'')
                          | None => None
                          end
                      | String "}" r' => Some ([(k, v)], r')
                      | _ => None
                      end
                  end
              | _ => None
              end
          end
      | _ => None
      end
  end.

(** [dict(pairs)]: a repeated key keeps its first position and its last
    value *)
Definition dict_of_pairs (pairs : list (string * json)) : list (string * json) :=
  fold_left (fun d kv => dict_set d (fst kv) (snd kv)) pairs [].

Fixpoint parse_value (fuel : nat) (s : string) : option (json * string) :=
  match fuel with
  | O => None
  | S fuel' =>
      match s with
      | EmptyString => None
      | String c rest =>
          if is_digit c || Ascii.eqb c "-" then
            match scan_int s with
            | Some (z, r) => Some (JInt z, r)
            | None => None
            end
          else
            match c with
            | "034" =>
                match scan_string rest with
                | Some (str, r) => Some (JStr str, r)
                | None => None
                end
            | "[" =>
                let s1 := skip_ws rest in
                match strip_prefix "]" s1 with
                | Some r => Some (JList [], r)
                | None =>
                    match parse_items (parse_value fuel') fuel' s1 with
                    | Some (vs, r) => Some (JList vs, r)
                    | None => None
                    end
                end
            | "{" =>
                let s1 := skip_ws rest in
                match strip_prefix "}" s1 with
                | Some r => Some (JObj [], r)
                | None =>
                    match parse_members (parse_value fuel') fuel' s1 with
                    | Some (kvs, r) => Some (JObj (dict_of_pairs kvs), r)
                    | None => None
                    end
                end
            | "n" => match strip_prefix "ull" rest with
                     | Some r => Some (JNull, r) | None => None end
            | "t" => match strip_prefix "rue" rest with
                     | Some r => Some (JBool true, r) | None => None end
            | "f" => match strip_prefix "alse" rest with
                     | Some r => Some (JBool false, r) | None => None end
            | _ => None
            end%char
      end
  end.

(** [json.loads(s)]: one value, white space allowed around it and nothing
    else.  Texts with a float literal or with a [\u] escape above 00ff are
    outside the model and read as malformed; [beyond_model] below marks
    them. *)
Definition loads (s : string) : option json :=
  match parse_value (S (String.length s)) (skip_ws s) with
  | Some (v, rest) =>
      match skip_ws rest with
      | EmptyString => Some v
      | String _ _ => None
      end
  | None => None
  end.

(** ** The world: files, output streams, exceptions *)

(** [files] maps a path to the text of the file there.  [unwritable] lists
    the paths where [open(path, 'w')] raises [OSError] (missing directory,
    no permission), with the message of the error.  [stdout] and [stderr]
    hold the arguments of the [print] calls so far, oldest first. *)
Record world : Type := World {
  files : gmap string string;
  unwritable : gmap string string;
  stdout : list string;
  stderr : list string
}.

(** A method: it reads and changes the world and returns or raises.  What
    it did to the world before raising stays done. *)
Definition M (A : Type) : Type := world -> result A * world.

Global Instance M_ret : MRet M := fun A a w => (Ok a, w).

Global Instance M_bind : MBind M := fun A B k m w =>
  match m w with
  | (Ok a, w') => k a w'
  | (Raise e, w') => (Raise e, w')
  end.

Definition lift {A} (r : result A) : M A := fun w => (r, w).

(** [try: body except Exception as e: handler(e)] *)
Definition try_except {A} (body : M A) (handler : exn -> M A) : M A := fun w =>
  match body w with
  | (Ok a, w') => (Ok a, w')
  | (Raise e, w') => handler e w'
  end.

Definition print (text : string) : M () := fun w =>
  (Ok (), World (files w) (unwritable w) (stdout w ++ [text]) (stderr w)).

(** [print(text, file=sys.stderr)] *)
Definition eprint (text : string) : M () := fun w =>
  (Ok (), World (files w) (unwritable w) (stdout w) (stderr w ++ [text])).

(** [path.exists()], for a path the system does not refuse to look at;
    the module [Examined] below has the general case *)
Definition path_exists (path : string) : M bool := fun w =>
  (Ok (bool_decide (is_Some (files w !! path))), w).

(** [with open(path, 'r') as f: return json.load(f)] *)
Definition read_json (path : string) : M json := fun w =>
  match files w !! path with
  | Some text =>
      match loads text with
      | Some v => (Ok v, w)
      | None => (Raise JSONDecodeError, w)
      end
  | None =>
      (Raise (OSError ("[Errno 2] No such file or directory: " +:+ repr_string path)), w)
  end.

(** [with open(path, 'w') as f: f.write(text)]: the file is replaced as a
    whole *)
Definition write_text (path text : string) : M () := fun w =>
  match unwritable w !! path with
  | Some msg => (Raise (OSError msg), w)
  | None => (Ok (), World (<[path := text]> (files w)) (unwritable w) (stdout w) (stderr w))
  end.

(** [open(path, 'w')]: the file is created, or emptied when it is there *)
Definition open_w (path : string) : M () := fun w =>
  match unwritable w !! path with
  | Some msg => (Raise (OSError msg), w)
  | None => (Ok (), World (<[path := ""]> (files w)) (unwritable w) (stdout w) (stderr w))
  end.

(** [f.write(text)] for the file opened at [path] *)
Definition append_text (path text : string) : M () := fun w =>
  (Ok (), World (<[path := default "" (files w !! path) +:+ text]> (files w))
            (unwritable w) (stdout w) (stderr w)).

(** [json.dump(value, f, indent=2)] for the file opened at [path].  The
    text is written piece by piece, and a piece that cannot be made or
    written stops the call with an exception: an integer beyond the digit
    limit of the interpreter, a nesting deeper than it recurses, a device
    that is full.  [fault] is then the text written before and the
    exception; it is [None] when the whole value is written. *)
Definition json_dump (fault : option (string * exn)) (value : json) (path : string)
  : M () :=
  match fault with
  | Some (begun, e) => append_text path begun;; lift (Raise e)
  | None => append_text path (dumps value)
  end.

(** [str(directory / name)] for a normalized directory and a plain file
    name *)
Definition path_join (directory name : string) : string :=
  directory +:+ "/" +:+ name.

(** ** The remote service *)

(** What the script sends: the URL, the command and the machine type.  The
    request id is a wall-clock stamp and is left out. *)
Record request : Type := Request {
  req_url : string;
  req_command : string;
  req_machine_type : string
}.

(** What comes of one [requests.post] followed by [raise_for_status] and
    [response.json()]: any of the three may raise (no connection or a
    timeout; an error status; a body that is not JSON), each with its
    message, or the decoded body comes back. *)
Inductive reply : Type :=
| PostRaises (msg : string)
| StatusRaises (msg : string)
| JsonRaises (msg : string)
| Replies (body : json).

(** The three settings read from the environment at start-up. *)
Record config : Type := Config {
  SCHEMA_DIR : string;
  OUTPUT_DIR : string;
  MCP_SERVER_URL : string
}.

Definition default_config : config :=
  Config "FactoryForge/Assets" ".machine-ui-test-results" "http://localhost:8080".

(** ** class MachineUISchemaFixer *)

Section MachineUISchemaFixer.

Variable cfg : config.
Variable remote : request -> reply.

Definition schema_dir : string := SCHEMA_DIR cfg.
Definition output_dir : string := OUTPUT_DIR cfg.

Definition result_path (machine_type : string) : string :=
  path_join output_dir (machine_type +:+ "_test_raw.json").

Definition schema_path (machine_type : string) : string :=
  path_join schema_dir (machine_type +:+ "_schema.json").

Definition prompt_path (machine_type : string) : string :=
  path_join output_dir (machine_type +:+ "_fix_prompt.md").

Definition load_test_results (machine_type : string) : M json :=
  let result_file := result_path machine_type in
  found ← path_exists result_file;
  if negb found then mret (JObj [])
  else read_json result_file.

Definition load_schema (machine_type : string) : M json :=
  let schema_file := schema_path machine_type in
  found ← path_exists schema_file;
  if negb found then mret (JObj [])
  else read_json schema_file.

(** Where [json.dump] stops on a document handed to [save_schema], if it
    does: the document comes from the caller and need not be one that was
    read from a file. *)
Variable dump_fault : json -> option (string * exn).

Definition save_schema (machine_type : string) (schema : json) : M bool :=
  let schema_file := schema_path machine_type in
  try_except
    (open_w schema_file;;
     json_dump (dump_fault schema) schema schema_file;;
     mret true)
    (fun e =>
       eprint ("Error saving schema: " +:+ exn_str e);;
       mret false).

(** [requests.post(...)], [response.raise_for_status()], [response.json()] *)
Definition post_command (command machine_type : string) : M json :=
  match remote (Request (MCP_SERVER_URL cfg +:+ "/command") command machine_type) with
  | PostRaises msg | StatusRaises msg | JsonRaises msg =>
      lift (Raise (RequestException msg))
  | Replies body => mret body
  end.

Definition test_schema (machine_type : string) : M json :=
  try_except
    (result ← post_command "test_machine_ui_schema" machine_type;
     let result_file := result_path machine_type in
     write_text result_file (dumps result);;
     mret result)
    (fun e =>
       mret (JObj [("success", JBool false); ("error", JStr (exn_str e))])).

Definition reload_schema (machine_type : string) : M json :=
  try_except
    (result ← post_command "reload_machine_ui_schema" machine_type;
     lift (py_get result "success" (JBool false)))
    (fun e =>
       eprint ("Error reloading schema: " +:+ exn_str e);;
       mret (JBool false)).

(** The [if]/[elif] chain of the analysis loop: the entry appended for one
    lower-cased error, if any. *)
Definition fix_for (machine_type error_lower : string) : option json :=
  if contains "not found" error_lower || contains "file not found" error_lower then
    Some (JObj [("issue", JStr "Schema file missing");
                ("action", JStr ("Create " +:+ machine_type +:+ "_schema.json in "
                                 +:+ schema_dir));
                ("priority", JStr "high")])
  else if contains "validation failed" error_lower || contains "missing" error_lower then
    if contains "header" error_lower then
      Some (JObj [("issue", JStr "Missing group header");
                  ("action", JStr "Add 'header' field to all groups in schema");
                  ("priority", JStr "high");
                  ("schema_section", JStr "groups")])
    else if contains "process" error_lower && contains "label" error_lower then
      Some (JObj [("issue", JStr "Missing process label");
                  ("action", JStr "Add 'label.text' field to process in schema");
                  ("priority", JStr "high");
                  ("schema_section", JStr "process")])
    else None
  else if contains "invalid" error_lower || contains "flow" error_lower then
    Some (JObj [("issue", JStr "Invalid flow position");
                ("action", JStr "Check group anchor positions relative to process anchor");
                ("priority", JStr "medium");
                ("schema_section", JStr "groups")])
  else None.

(** The loop [for error in errors]; [fixes_needed] is the list being
    appended to. *)
Fixpoint analyze_errors (machine_type : string) (errors fixes_needed : list json)
  : result (list json) :=
  match errors with
  | [] => Ok fixes_needed
  | error :: rest =>
      rbind (py_lower error) (fun error_lower =>
        analyze_errors machine_type rest
          match fix_for machine_type error_lower with
          | Some entry => fixes_needed ++ [entry]
          | None => fixes_needed
          end)
  end.

(** The summary stored under [schema_snippet] when the schema is not
    empty. *)
Definition schema_snippet (schema : json) : result json :=
  (machineKind <-? py_get schema "machineKind" JNull;
   version <-? py_get schema "version" JNull;
   groups <-? py_get schema "groups" (JList []);
   groups_count <-? py_len groups;
   has_process <-? py_in "process" schema;
   has_recipes <-? py_in "recipes" schema;
   Ok (JObj [("machineKind", machineKind);
             ("version", version);
             ("groups_count", JInt groups_count);
             ("has_process", JBool has_process);
             ("has_recipes", JBool has_recipes)]))%res.

Definition no_test_results : json := JObj [("error", JStr "No test results found")].

Definition get_fix_suggestions (machine_type : string) : M json :=
  test_result ← load_test_results machine_type;
  schema ← load_schema machine_type;
  if negb (truthy test_result) then mret no_test_results
  else
    errors ← lift (py_get test_result "errors" (JList []));
    warnings ← lift (py_get test_result "warnings" (JList []));
    items ← lift (py_iter errors);
    fixes_needed ← lift (analyze_errors machine_type items []);
    snippet ← (if truthy schema then lift (schema_snippet schema) else mret (JObj []));
    mret (JObj [("machine_type", JStr machine_type);
                ("schema_file", JStr (schema_path machine_type));
                ("errors", errors);
                ("warnings", warnings);
                ("fixes_needed", JList fixes_needed);
                ("schema_snippet", snippet)]).

(** [for item in items: prompt += f"- {item}\n"] *)
Definition add_bullets (prompt : string) (items : list json) : string :=
  fold_left (fun p item => p +:+ "- " +:+ py_str item +:+ LF) items prompt.

(** the loop over [fixes_needed] in the prompt *)
Fixpoint add_fixes (prompt : string) (fixes : list json) : result string :=
  match fixes with
  | [] => Ok prompt
  | fix_ :: rest =>
      (issue <-? py_getitem fix_ "issue";
       priority <-? py_getitem fix_ "priority";
       let prompt := prompt +:+ "- **" +:+ py_str issue +:+ "** (Priority: "
                     +:+ py_str priority +:+ ")" +:+ LF in
       action <-? py_getitem fix_ "action";
       let prompt := prompt +:+ "  - Action: " +:+ py_str action +:+ LF in
       add_fixes prompt rest)%res
  end.

Definition prompt_title (machine_type : string) : string :=
  "# Fix MachineUI Schema: " +:+ machine_type +:+ LF
  +:+ LF
  +:+ "## Current Issues" +:+ LF
  +:+ LF.

Definition prompt_tail (schema_file schema_dump : string) : string :=
  "## Schema File Location" +:+ LF
  +:+ schema_file +:+ LF
  +:+ LF
  +:+ "## Current Schema Structure" +:+ LF
  +:+ "```json" +:+ LF
  +:+ schema_dump +:+ "..." +:+ LF
  +:+ "```" +:+ LF
  +:+ LF
  +:+ "## Task" +:+ LF
  +:+ "Please fix the schema file to resolve the errors and warnings listed above." +:+ LF
  +:+ "The schema file is located at: " +:+ schema_file +:+ LF
  +:+ LF
  +:+ "After fixing, the schema will be automatically tested and reloaded in the app."
  +:+ LF.

(** The text built by [generate_llm_prompt] once the suggestions and the
    schema are loaded. *)
Definition render_prompt (machine_type : string) (suggestions schema : json)
  : result string :=
  (let prompt := prompt_title machine_type in
   errors <-? py_get suggestions "errors" JNull;
   prompt <-?
     (if truthy errors then
        let prompt := prompt +:+ "### Errors:" +:+ LF in
        listed <-? py_getitem suggestions "errors";
        items <-? py_iter listed;
        let prompt := add_bullets prompt items in
        Ok (prompt +:+ LF)
      else Ok prompt);
   warnings <-? py_get suggestions "warnings" JNull;
   prompt <-?
     (if truthy warnings then
        let prompt := prompt +:+ "### Warnings:" +:+ LF in
        listed <-? py_getitem suggestions "warnings";
        items <-? py_iter listed;
        let prompt := add_bullets prompt items in
        Ok (prompt +:+ LF)
      else Ok prompt);
   fixes_needed <-? py_get suggestions "fixes_needed" JNull;
   prompt <-?
     (if truthy fixes_needed then
        let prompt := prompt +:+ "### Fixes Needed:" +:+ LF in
        listed <-? py_getitem suggestions "fixes_needed";
        items <-? py_iter listed;
        prompt <-? add_fixes prompt items;
        Ok (prompt +:+ LF)
      else Ok prompt);
   schema_file <-? py_getitem suggestions "schema_file";
   let schema_dump := take_string 1000 (dumps schema) in
   Ok (prompt +:+ prompt_tail (py_str schema_file) schema_dump))%res.

Definition generate_llm_prompt (machine_type : string) : M string :=
  suggestions ← get_fix_suggestions machine_type;
  schema ← load_schema machine_type;
  lift (render_prompt machine_type suggestions schema).

Definition rule : string := repeat_string "=" 60.

Definition run_fix_workflow (machine_type : string) : M json :=
  print ("Running fix workflow for: " +:+ machine_type);;
  print "1. Testing current schema...";;
  test_result ← test_schema machine_type;
  success ← lift (py_get test_result "success" JNull);
  if truthy success then
    print ("✓ Schema for " +:+ machine_type +:+ " is already valid!");;
    mret (JObj [("success", JBool true); ("message", JStr "No fixes needed")])
  else
    print "2. Analyzing issues...";;
    suggestions ← get_fix_suggestions machine_type;
    print "3. Generating fix prompt...";;
    prompt ← generate_llm_prompt machine_type;
    let prompt_file := prompt_path machine_type in
    write_text prompt_file prompt;;
    print (LF +:+ rule);;
    print "LLM FIX PROMPT GENERATED";;
    print rule;;
    print (LF +:+ "Prompt saved to: " +:+ prompt_file);;
    print (LF +:+ "Please review the prompt and fix the schema file.");;
    schema_file ← lift (py_getitem suggestions "schema_file");
    print ("Schema file: " +:+ py_str schema_file);;
    print (LF +:+ "After fixing, run:");;
    print ("  python3 automate-machine-ui-fixes.py verify " +:+ machine_type);;
    print (rule +:+ LF);;
    schema_file ← lift (py_getitem suggestions "schema_file");
    mret (JObj [("success", JBool false);
                ("fixes_needed", JBool true);
                ("prompt_file", JStr prompt_file);
                ("schema_file", schema_file);
                ("suggestions", suggestions)]).

(** [for error in errors: print(f"  - {error}")] *)
Fixpoint print_errors (errors : list json) : M () :=
  match errors with
  | [] => mret ()
  | error :: rest => print ("  - " +:+ py_str error);; print_errors rest
  end.

Definition verify_fix (machine_type : string) : M json :=
  print ("Verifying fix for: " +:+ machine_type);;
  test_result ← test_schema machine_type;
  success ← lift (py_get test_result "success" JNull);
  if truthy success then
    print ("✓ Schema for " +:+ machine_type +:+ " is now valid!");;
    print "Reloading schema in app...";;
    reloaded ← reload_schema machine_type;
    (if truthy reloaded then print "✓ Schema reloaded successfully!"
     else print "⚠ Could not reload schema (app may not be running)");;
    mret (JObj [("success", JBool true); ("test_result", test_result)])
  else
    print "✗ Schema still has issues:";;
    errors ← lift (py_get test_result "errors" (JList []));
    items ← lift (py_iter errors);
    print_errors items;;
    mret (JObj [("success", JBool false); ("test_result", test_result)]).

End MachineUISchemaFixer.

(** ** The loaders with the existence test in full *)

(** [Path.exists()] asks the system about the path.  Up to Python 3.13 it
    answers [False] for the errors that mean the file is not there and
    passes every other [OSError] on; a file name longer than the file
    system allows is one.  [stat_error path] is the message of such an
    error, if the system raises one at [path].  The loaders above are the
    case where it never does. *)
Module Examined.
Section Examined.

Variable stat_error : string -> option string.
Variable cfg : config.

(** [path.exists()] *)
Definition path_exists (path : string) : M bool := fun w =>
  match stat_error path with
  | Some msg => (Raise (OSError msg), w)
  | None => (Ok (bool_decide (is_Some (files w !! path))), w)
  end.

Definition load_test_results (machine_type : string) : M json :=
  let result_file := result_path cfg machine_type in
  found ← path_exists result_file;
  if negb found then mret (JObj [])
  else read_json result_file.

Definition load_schema (machine_type : string) : M json :=
  let schema_file := schema_path cfg machine_type in
  found ← path_exists schema_file;
  if negb found then mret (JObj [])
  else read_json schema_file.

End Examined.
End Examined.

(** ** Notions used in the statements *)

(** [text] may hold JSON that the embedding leaves out: a digit followed by
    [.], [e] or [E] (a fraction or an exponent), [NaN], [Infinity], or a
    [\u] escape.  Where none of these occurs, [loads] gives nothing
    exactly where [json.loads] raises [JSONDecodeError]. *)
Fixpoint digit_then_mark (text : string) : bool :=
  match text with
  | EmptyString => false
  | String c rest => (is_digit c && starts_fraction rest) || digit_then_mark rest
  end.

Definition beyond_model (text : string) : bool :=
  digit_then_mark text || contains "NaN" text || contains "Infinity" text
  || contains "\u" text.

(** the number of opening brackets and braces *)
Fixpoint brackets (text : string) : nat :=
  match text with
  | EmptyString => O
  | String c rest =>
      if Ascii.eqb c "[" || Ascii.eqb c "{" then S (brackets rest) else brackets rest
  end.

(** the length of the longest run of digits, [run] digits having just been
    seen *)
Fixpoint digit_run (text : string) (run : nat) : nat :=
  match text with
  | EmptyString => run
  | String c rest =>
      if is_digit c then digit_run rest (S run) else Nat.max run (digit_run rest O)
  end.

(** [json.load] gives up on a text, JSON or not, that asks too much of the
    interpreter: an integer of more than 4300 digits ([ValueError]), a
    nesting near the recursion limit of 1000 ([RecursionError]).  A text
    with at most 500 opening brackets and no longer run of digits than
    4300 is clear of both. *)
Definition within_limits (text : string) : bool :=
  (brackets text <=? 500)%nat && (digit_run text O <=? 4300)%nat.


(** The message of the exception raised by a failed call of the remote
    service, if the call failed. *)
Definition failure_message (r : reply) : option string :=
  match r with
  | PostRaises msg | StatusRaises msg | JsonRaises msg => Some msg
  | Replies _ => None
  end.

Definition is_string (v : json) : bool :=
  match v with JStr _ => true | _ => false end.

(** absent, or a list of strings *)
Definition optional_strings (field : option json) : bool :=
  match field with
  | None => true
  | Some (JList items) => forallb is_string items
  | Some _ => false
  end.

(** A test result of the data model: an object with a boolean [success]
    and, when present, lists of strings under [errors] and [warnings]. *)
Definition is_test_result (v : json) : bool :=
  match v with
  | JObj members =>
      match dict_lookup members "success" with
      | Some (JBool _) =>
          optional_strings (dict_lookup members "errors")
          && optional_strings (dict_lookup members "warnings")
      | _ => false
      end
  | _ => false
  end.

(** A schema document of the data model: an object whose [groups], when
    present, is a sequence. *)
Definition is_schema (v : json) : bool :=
  match v with
  | JObj members =>
      match dict_lookup members "groups" with
      | None | Some (JList _) => true
      | Some _ => false
      end
  | _ => false
  end.

Definition field (v : json) (k : string) (default : json) : json :=
  match v with
  | JObj members => match dict_lookup members k with Some x => x | None => default end
  | _ => default
  end.

Definition strings_of (v : json) : list string :=
  match v with
  | JList items => omap (fun x => match x with JStr s => Some s | _ => None end) items
  | _ => []
  end.

(** the entries the rule list yields for a list of error strings *)
Definition suggested (cfg : config) (machine_type : string) (errors : list string)
  : list json :=
  omap (fun e => fix_for cfg machine_type (lower e)) errors.

Definition snippet_of (schema : json) : json :=
  if truthy schema then
    JObj [("machineKind", field schema "machineKind" JNull);
          ("version", field schema "version" JNull);
          ("groups_count",
           JInt (match field schema "groups" (JList []) with
                 | JList items => Z.of_nat (length items)
                 | _ => 0
                 end));
          ("has_process", JBool (match schema with
                                 | JObj members => dict_has members "process"
                                 | _ => false end));
          ("has_recipes", JBool (match schema with
                                 | JObj members => dict_has members "recipes"
                                 | _ => false end))]
  else JObj [].

(** the suggestions object for a test result, around a given snippet *)
Definition with_snippet (cfg : config) (machine_type : string)
    (test_result snippet : json) : json :=
  JObj [("machine_type", JStr machine_type);
        ("schema_file", JStr (schema_path cfg machine_type));
        ("errors", field test_result "errors" (JList []));
        ("warnings", field test_result "warnings" (JList []));
        ("fixes_needed",
         JList (suggested cfg machine_type
                  (strings_of (field test_result "errors" (JList [])))));
        ("schema_snippet", snippet)].

(** the suggestions object for a test result and a schema *)
Definition suggestions_for (cfg : config) (machine_type : string)
    (test_result schema : json) : json :=
  with_snippet cfg machine_type test_result (snippet_of schema).

(** What loading the file at [path] yields: the empty mapping when there is
    no file, nothing when its text is not JSON. *)
Definition stored (path : string) (w : world) : option json :=
  match files w !! path with
  | None => Some (JObj [])
  | Some text => loads text
  end.

(** The schema file of a key is absent or holds a schema document. *)
Definition schema_store_ok (cfg : config) (machine_type : string) (w : world) : Prop :=
  exists schema,
    stored (schema_path cfg machine_type) w = Some schema /\ is_schema schema = true.


(** the request of a [test] or [reload] call *)
Definition command_request (cfg : config) (command machine_type : string) : request :=
  Request (MCP_SERVER_URL cfg +:+ "/command") command machine_type.

(** the world after one more [print] *)
Definition printed (text : string) (w : world) : world :=
  World (files w) (unwritable w) (stdout w ++ [text]) (stderr w).


(** [c in s] for one character *)
Fixpoint has_char (c : ascii) (s : string) : bool :=
  match s with
  | EmptyString => false
  | String x rest => Ascii.eqb x c || has_char c rest
  end.


(** ** Notions for the JSON round trip *)

(** Induction on values, with the hypothesis for every item of a list and
    every member of an object. *)
Definition json_ind (P : json -> Prop)
    (HNull : P JNull) (HBool : forall b, P (JBool b)) (HInt : forall z, P (JInt z))
    (HStr : forall s, P (JStr s))
    (HList : forall items, Forall P items -> P (JList items))
    (HObj : forall members, Forall (fun kv => P (snd kv)) members -> P (JObj members))
  : forall v, P v :=
  fix go (v : json) : P v :=
    match v with
    | JNull => HNull
    | JBool b => HBool b
    | JInt z => HInt z
    | JStr s => HStr s
    | JList items =>
        HList items
          ((fix all (l : list json) : Forall P l :=
              match l with
              | [] => List.Forall_nil P
              | x :: l' => @List.Forall_cons _ P x l' (go x) (all l')
              end) items)
    | JObj members =>
        HObj members
          ((fix all (l : list (string * json)) : Forall (fun kv => P (snd kv)) l :=
              match l with
              | [] => List.Forall_nil _
              | kv :: l' => @List.Forall_cons _ (fun kv => P (snd kv)) kv l' (go (snd kv)) (all l')
              end) members)
    end.

(** a digit string without superfluous leading zero *)
Definition normal_uint (u : uint) : Prop :=
  match u with
  | Nil => False
  | D0 Nil => True
  | D0 _ => False
  | _ => True
  end.

(** what may follow an integer literal: not a digit, not the start of a
    fraction or exponent *)
Definition stops_number (rest : string) : bool :=
  match rest with
  | EmptyString => true
  | String c _ => negb (is_digit c) && negb (starts_fraction rest)
  end.

(** the loops of [dumps_at] over the items of a list and the members of an
    object, under names of their own *)
Definition dump_items (lvl : nat) : bool -> list json -> string :=
  fix go (first : bool) (l : list json) : string :=
    match l with
    | [] => ""
    | x :: l' =>
        (if first then "" else ",") +:+ newline_indent (S lvl)
        +:+ dumps_at (S lvl) x +:+ go false l'
    end.

Definition dump_members (lvl : nat) : bool -> list (string * json) -> string :=
  fix go (first : bool) (l : list (string * json)) : string :=
    match l with
    | [] => ""
    | (k, x) :: l' =>
        (if first then "" else ",") +:+ newline_indent (S lvl)
        +:+ encode_string k +:+ ": " +:+ dumps_at (S lvl) x +:+ go false l'
    end.

(** recursion depth that [parse_value] needs to read back a value *)
Fixpoint need (v : json) : nat :=
  match v with
  | JList items =>
      S ((fix sum (l : list json) : nat :=
            match l with
            | [] => O
            | x :: l' => (S (need x) + sum l')%nat
            end) items)
  | JObj members =>
      S ((fix sum (l : list (string * json)) : nat :=
            match l with
            | [] => O
            | kv :: l' => (S (need (snd kv)) + sum l')%nat
            end) members)
  | _ => 1%nat
  end.

Definition need_items : list json -> nat :=
  fix sum (l : list json) : nat :=
    match l with
    | [] => O
    | x :: l' => (S (need x) + sum l')%nat
    end.

Definition need_members : list (string * json) -> nat :=
  fix sum (l : list (string * json)) : nat :=
    match l with
    | [] => O
    | kv :: l' => (S (need (snd kv)) + sum l')%nat
    end.

(** Every object inside the value has pairwise distinct keys, as every
    dict has. *)
Fixpoint distinct_keys (v : json) : bool :=
  match v with
  | JList items =>
      (fix all (l : list json) : bool :=
         match l with
         | [] => true
         | x :: l' => distinct_keys x && all l'
         end) items
  | JObj members =>
      bool_decide (NoDup (fst <$> members)) &&
      (fix all (l : list (string * json)) : bool :=
         match l with
         | [] => true
         | kv :: l' => distinct_keys (snd kv) && all l'
         end) members
  | _ => true
  end.

(** the characters a rendered value can start with *)
Definition value_start (c : ascii) : bool :=
  is_digit c || Ascii.eqb c "-" || Ascii.eqb c "034" || Ascii.eqb c "["
  || Ascii.eqb c "{" || Ascii.eqb c "n" || Ascii.eqb c "t" || Ascii.eqb c "f".

Definition distinct_items : list json -> bool :=
  fix all (l : list json) : bool :=
    match l with
    | [] => true
    | x :: l' => distinct_keys x && all l'
    end.

Definition distinct_members : list (string * json) -> bool :=
  fix all (l : list (string * json)) : bool :=
    match l with
    | [] => true
    | kv :: l' => distinct_keys (snd kv) && all l'
    end.

(** [parse_value] reads back what [dumps_at] wrote, whatever follows *)
Definition roundtrips (v : json) : Prop :=
  forall lvl rest n,
    distinct_keys v = true -> (need v <= n)%nat -> stops_number rest = true ->
    parse_value n (dumps_at lvl v +:+ rest) = Some (v, rest).

(** ** Sample inputs *)

(** no files, nothing printed, every path writable *)
Definition empty_world : world := World ∅ ∅ [] [].

(** a small schema document *)
Definition version_one : json := JObj [("version", JInt 1)].


(** a service that cannot be reached *)
Definition unreachable : request -> reply :=
  fun _ => PostRaises "Connection refused".

(** a service that passes every test and then goes away before the reload *)
Definition approving : request -> reply := fun r =>
  if String.eqb (req_command r) "test_machine_ui_schema"
  then Replies (JObj [("success", JBool true)])
  else PostRaises "Connection refused".

(** a stored result with two errors, the second one about a process label *)
Definition label_result : json :=
  JObj [("success", JBool false);
        ("errors", JList [JStr "Invalid flow"; JStr "missing process label"]);
        ("warnings", JList [])].

Definition label_world : world :=
  World {[result_path default_config "furnace" := dumps label_result]} ∅ [] [].

(** the stored result of the missing-header scenario *)
Definition header_result : json :=
  JObj [("success", JBool false);
        ("errors", JList [JStr "Schema validation failed: missing header in group 2"]);
        ("warnings", JList [])].

Definition header_world : world :=
  World {[result_path default_config "furnace" := dumps header_result]} ∅ [] [].

(** a stored result whose only error says both [missing] and [not found] *)
Definition not_found_result : json :=
  JObj [("success", JBool false);
        ("errors", JList [JStr "Missing schema: file not found"]);
        ("warnings", JList [])].

Definition not_found_world : world :=
  World {[result_path default_config "furnace" := dumps not_found_result]} ∅ [] [].




(** ** The command line *)

Section CommandLine.

Variable cfg : config.
Variable remote : request -> reply.

(** What [self.output_dir.mkdir(exist_ok=True)] comes to.  Directories are
    not part of the world: the call goes through, or it raises [OSError]
    with the given message. *)
Variable mkdir_error : option string.

Definition usage : string :=
  "Usage:" +:+ LF
  +:+ "  python3 automate-machine-ui-fixes.py fix <machine_type>    - Generate fix prompt" +:+ LF
  +:+ "  python3 automate-machine-ui-fixes.py verify <machine_type> - Verify a fix" +:+ LF
  +:+ "  python3 automate-machine-ui-fixes.py test <machine_type>   - Test a schema" +:+ LF
  +:+ LF
  +:+ "Examples:" +:+ LF
  +:+ "  python3 automate-machine-ui-fixes.py fix furnace" +:+ LF
  +:+ "  python3 automate-machine-ui-fixes.py verify furnace" +:+ LF.

(** [MachineUISchemaFixer()] *)
Definition __init__ : M () :=
  match mkdir_error with
  | Some msg => lift (Raise (OSError msg))
  | None => mret ()
  end.

(** [sys.exit(0 if result.get("success") else 1)]: the status the process
    ends with *)
Definition exit_on (result : json) : M Z :=
  success ← lift (py_get result "success" JNull);
  mret (if truthy success then 0 else 1).

(** [main()] for [sys.argv = argv]; the value returned is the argument of
    [sys.exit]. *)
Definition main (argv : list string) : M Z :=
  match argv with
  | [] | [_] =>
      print usage;;
      mret 1
  | _ :: command :: args =>
      __init__;;
      if String.eqb command "fix" then
        match args with
        | [] => print "Error: machine_type required";; mret 1
        | machine_type :: _ =>
            result ← run_fix_workflow cfg remote machine_type;
            exit_on result
        end
      else if String.eqb command "verify" then
        match args with
        | [] => print "Error: machine_type required";; mret 1
        | machine_type :: _ =>
            result ← verify_fix cfg remote machine_type;
            exit_on result
        end
      else if String.eqb command "test" then
        match args with
        | [] => print "Error: machine_type required";; mret 1
        | machine_type :: _ =>
            result ← test_schema cfg remote machine_type;
            print (dumps result);;
            exit_on result
        end
      else
        print ("Unknown command: " +:+ command);;
        mret 1
  end.

End CommandLine.

(** ** More notions used in the statements *)

(** what [test_schema] returns when an exception with message [msg] was
    caught *)
Definition failed_test (msg : string) : json :=
  JObj [("success", JBool false); ("error", JStr msg)].

(** the world after one more line on standard error *)
Definition eprinted (text : string) (w : world) : world :=
  World (files w) (unwritable w) (stdout w) (stderr w ++ [text]).

(** the world after [text] was written to the file at [path] *)
Definition written (path text : string) (w : world) : world :=
  World (<[path := text]> (files w)) (unwritable w) (stdout w) (stderr w).

(** ** The rule list *)

(** a fix entry as the rules build it *)
Definition is_fix_entry (entry : json) : Prop :=
  exists issue action priority extra,
    entry = JObj (("issue", JStr issue) :: ("action", JStr action)
                  :: ("priority", JStr priority) :: extra) /\
    (priority = "high" \/ priority = "medium") /\
    (priority = "medium" <-> issue = "Invalid flow position").

(** ** The layout of the prompt *)

Definition bullets (items : list string) : string :=
  fold_right (fun item rest => "- " +:+ item +:+ LF +:+ rest) "" items.

Definition fix_lines (fixes : list json) : string :=
  fold_right
    (fun entry rest =>
       "- **" +:+ py_str (field entry "issue" JNull) +:+ "** (Priority: "
       +:+ py_str (field entry "priority" JNull) +:+ ")" +:+ LF
       +:+ "  - Action: " +:+ py_str (field entry "action" JNull) +:+ LF +:+ rest)
    "" fixes.

(** a heading, the lines under it and an empty line; nothing when there
    are no lines *)
Definition prompt_section {A} (heading : string) (items : list A) (lines : string)
  : string :=
  match items with
  | [] => ""
  | _ => heading +:+ LF +:+ lines +:+ LF
  end.

(** the prompt for the given errors, warnings and schema *)
Definition prompt_text (cfg : config) (key : string) (errors warnings : list string)
    (schema : json) : string :=
  prompt_title key
  +:+ prompt_section "### Errors:" errors (bullets errors)
  +:+ prompt_section "### Warnings:" warnings (bullets warnings)
  +:+ prompt_section "### Fixes Needed:" (suggested cfg key errors)
        (fix_lines (suggested cfg key errors))
  +:+ prompt_tail (schema_path cfg key) (take_string 1000 (dumps schema)).

(** ** The workflows in full *)

(** what [run_fix_workflow] returns after it wrote the prompt *)
Definition fix_report (cfg : config) (key : string) (test_result schema : json) : json :=
  JObj [("success", JBool false);
        ("fixes_needed", JBool true);
        ("prompt_file", JStr (prompt_path cfg key));
        ("schema_file", JStr (schema_path cfg key));
        ("suggestions", suggestions_for cfg key test_result schema)].

(** ** Reading does not write *)

(** a method that leaves the world as it found it, also when it raises *)
Definition read_only {A} (m : M A) : Prop := forall w, snd (m w) = w.

(** ** More sample inputs *)

Definition answering (body : json) : request -> reply := fun _ => Replies body.

Definition locked_results_world : world :=
  World ∅ {[result_path default_config "furnace" := "[Errno 13] Permission denied"]} [] [].

Definition passing_result : json := JObj [("success", JBool true)].

Definition garbled_world : world :=
  World {[result_path default_config "furnace" := "{oops"]} ∅ [] [].

Definition numbered_errors : json :=
  JObj [("success", JBool false); ("errors", JList [JStr "flow"; JInt 7])].

Definition numbered_world : world :=
  World {[result_path default_config "furnace" := dumps numbered_errors]} ∅ [] [].

Definition odd_schema : json := JObj [("groups", JInt 3)].

Definition odd_schema_world : world :=
  World {[result_path default_config "furnace" := dumps header_result;
          schema_path default_config "furnace" := dumps odd_schema]} ∅ [] [].



(** the part of a path after its last slash *)
Fixpoint file_name (path : string) : string :=
  match path with
  | EmptyString => EmptyString
  | String _ rest => if has_char "/" path then file_name rest else path
  end.

(** A file system whose names hold at most 255 bytes, with the directories
    in place: the system refuses to look at a longer name. *)
Definition name_limit (path : string) : option string :=
  if (255 <? String.length (file_name path))%nat
  then Some ("[Errno 36] File name too long: " +:+ repr_string path)
  else None.

Definition long_key : string := repeat_string "a" 250.

(** [json.dump] never stops *)
Definition no_fault : json -> option (string * exn) := fun _ => None.

Definition big_number : json := JObj [("n", JInt (10 ^ 4300))].

(** [json.dump] under the digit limit of Python 3.11, for the documents
    with a single integer member: an integer of more than 4300 digits
    stops the call after the key was written. *)
Definition digit_limit (doc : json) : option (string * exn) :=
  match doc with
  | JObj [(key, JInt n)] =>
      if 10 ^ 4300 <=? Z.abs n
      then Some ("{" +:+ LF +:+ "  " +:+ dumps (JStr key) +:+ ": ",
                 ValueError ("Exceeds the limit (4300 digits) for integer string "
                             +:+ "conversion; use sys.set_int_max_str_digits() to "
                             +:+ "increase the limit"))
      else None
  | _ => None
  end.

(** * Properties *)

(** ** Strings *)

Lemma app_cons c (s t : string) : String c s +:+ t = String c (s +:+ t).
Proof. reflexivity. Qed.

Lemma app_empty_l (t : string) : "" +:+ t = t.
Proof. reflexivity. Qed.

Lemma app_empty_r (s : string) : s +:+ "" = s.
Proof. induction s as [|c s IH]; [reflexivity|]. by rewrite app_cons, IH. Qed.

Lemma app_assoc_s (a b c : string) : (a +:+ b) +:+ c = a +:+ (b +:+ c).
Proof. induction a as [|x a IH]; [reflexivity|]. by rewrite !app_cons, IH. Qed.

Lemma length_app_s (a b : string) :
  String.length (a +:+ b) = (String.length a + String.length b)%nat.
Proof. induction a as [|x a IH]; [reflexivity|]. rewrite app_cons. simpl. by rewrite IH. Qed.

(** ** Numbers *)

Lemma nzhead_no_zero d : match nzhead d with D0 _ => False | _ => True end.
Proof. induction d; simpl; auto. Qed.

Lemma unorm_normal d : normal_uint (unorm d).
Proof.
  unfold unorm. pose proof (nzhead_no_zero d) as H.
  destruct (nzhead d); cbv in *; tauto.
Qed.

Lemma to_uint_normal n : normal_uint (N.to_uint n).
Proof.
  rewrite <- (DecimalN.Unsigned.of_to n) at 1.
  rewrite DecimalN.Unsigned.to_of. apply unorm_normal.
Qed.

Lemma digit_of_char_not_digit c : is_digit c = false -> digit_of_char c = None.
Proof. destruct c as [[] [] [] [] [] [] [] []]; vm_compute; congruence. Qed.

Lemma read_uint_string u rest :
  stops_number rest = true ->
  read_uint (NilEmpty.string_of_uint u +:+ rest) = (u, rest).
Proof.
  intros Hrest.
  induction u; simpl NilEmpty.string_of_uint; rewrite ?app_cons; simpl read_uint;
    rewrite ?IHu; try reflexivity.
  rewrite app_empty_l. destruct rest as [|c r]; [reflexivity|].
  simpl in Hrest. apply andb_true_iff in Hrest as [Hd _].
  apply negb_true_iff in Hd. simpl. by rewrite (digit_of_char_not_digit _ Hd).
Qed.

Lemma stops_not_fraction rest : stops_number rest = true -> starts_fraction rest = false.
Proof.
  destruct rest as [|c r]; [reflexivity|]. simpl stops_number.
  intros [_ H]%andb_true_iff. by apply negb_true_iff in H.
Qed.

Lemma no_minus_head u rest :
  u <> Nil ->
  match NilEmpty.string_of_uint u +:+ rest with
  | String "-" r => (true, r)
  | _ => (false, NilEmpty.string_of_uint u +:+ rest)
  end = (false, NilEmpty.string_of_uint u +:+ rest).
Proof. destruct u; intros H; try reflexivity. by destruct H. Qed.

Lemma scan_int_string_of_Z z rest :
  stops_number rest = true ->
  scan_int (string_of_Z z +:+ rest) = Some (z, rest).
Proof.
  intros Hrest. pose proof (stops_not_fraction _ Hrest) as Hfrac.
  unfold string_of_Z, string_of_N, scan_int.
  destruct (z <? 0) eqn:Hz.
  - apply Z.ltb_lt in Hz.
    rewrite app_assoc_s, app_cons, app_empty_l. cbv iota beta.
    rewrite (read_uint_string _ _ Hrest).
    pose proof (to_uint_normal (Z.to_N (- z))) as Hn.
    assert (Z.of_N (N.of_uint (N.to_uint (Z.to_N (- z)))) = - z) as Hval.
    { rewrite DecimalN.Unsigned.of_to. lia. }
    destruct (N.to_uint (Z.to_N (- z))) as [|u|u|u|u|u|u|u|u|u|u]; try (by destruct Hn);
      try (rewrite Hfrac, Hval; f_equal; f_equal; lia).
    destruct u; try (by destruct Hn). rewrite Hfrac, Hval. f_equal; f_equal; lia.
  - apply Z.ltb_ge in Hz.
    pose proof (to_uint_normal (Z.to_N z)) as Hn.
    rewrite no_minus_head by (intros E; rewrite E in Hn; exact Hn).
    rewrite (read_uint_string _ _ Hrest).
    assert (Z.of_N (N.of_uint (N.to_uint (Z.to_N z))) = z) as Hval.
    { rewrite DecimalN.Unsigned.of_to. lia. }
    destruct (N.to_uint (Z.to_N z)) as [|u|u|u|u|u|u|u|u|u|u]; try (by destruct Hn);
      try (by rewrite Hfrac, Hval).
    destruct u; try (by destruct Hn). by rewrite Hfrac, Hval.
Qed.

(** ** String literals *)

Lemma scan_encode_char c t :
  scan_string (encode_char c +:+ t) = prepend c (scan_string t).
Proof. destruct c as [[] [] [] [] [] [] [] []]; reflexivity. Qed.

Lemma scan_encode_chars s rest :
  scan_string (encode_chars s +:+ String "034" rest) = Some (s, rest).
Proof.
  induction s as [|c s IH]; [reflexivity|].
  simpl encode_chars. rewrite app_assoc_s, scan_encode_char, IH. reflexivity.
Qed.

Lemma scan_encode_string s rest :
  exists body, encode_string s +:+ rest = String "034" body /\
               scan_string body = Some (s, rest).
Proof.
  exists (encode_chars s +:+ String "034" rest). split.
  - unfold encode_string. rewrite app_cons, app_assoc_s. reflexivity.
  - apply scan_encode_chars.
Qed.

(** ** Values *)

Lemma dumps_list lvl x xs :
  dumps_at lvl (JList (x :: xs)) =
  "[" +:+ dump_items lvl true (x :: xs) +:+ newline_indent lvl +:+ "]".
Proof. reflexivity. Qed.

Lemma dumps_obj lvl kv kvs :
  dumps_at lvl (JObj (kv :: kvs)) =
  "{" +:+ dump_members lvl true (kv :: kvs) +:+ newline_indent lvl +:+ "}".
Proof. reflexivity. Qed.

Lemma dump_items_cons lvl first x xs :
  dump_items lvl first (x :: xs) =
  (if first then "" else ",") +:+ newline_indent (S lvl)
  +:+ dumps_at (S lvl) x +:+ dump_items lvl false xs.
Proof. reflexivity. Qed.

Lemma dump_members_cons lvl first k x kvs :
  dump_members lvl first ((k, x) :: kvs) =
  (if first then "" else ",") +:+ newline_indent (S lvl)
  +:+ encode_string k +:+ ": " +:+ dumps_at (S lvl) x +:+ dump_members lvl false kvs.
Proof. reflexivity. Qed.

Lemma string_of_uint_head u rest :
  u <> Nil ->
  exists c r, NilEmpty.string_of_uint u +:+ rest = String c r /\ is_digit c = true.
Proof. destruct u; intros H; try (by destruct H); eexists _, _; split; reflexivity. Qed.

Lemma dumps_head v lvl rest :
  exists c r, dumps_at lvl v +:+ rest = String c r /\ value_start c = true.
Proof.
  destruct v as [|[]|z|s|[|x xs]|[|kv kvs]]; try (eexists _, _; split; reflexivity).
  simpl dumps_at. unfold string_of_Z, string_of_N. destruct (z <? 0).
  - eexists _, _; split; reflexivity.
  - destruct (string_of_uint_head (N.to_uint (Z.to_N z)) rest) as (c & r & E & Hc).
    + intros E. pose proof (to_uint_normal (Z.to_N z)) as Hn. by rewrite E in Hn.
    + exists c, r. split; [exact E|]. unfold value_start. by rewrite Hc.
Qed.

Lemma value_start_not_ws c : value_start c = true -> is_ws c = false.
Proof. destruct c as [[] [] [] [] [] [] [] []]; vm_compute; congruence. Qed.

Lemma skip_ws_nonws c s : is_ws c = false -> skip_ws (String c s) = String c s.
Proof. intros H. simpl. by rewrite H. Qed.

Lemma skip_ws_dumps v lvl rest :
  skip_ws (dumps_at lvl v +:+ rest) = dumps_at lvl v +:+ rest.
Proof.
  destruct (dumps_head v lvl rest) as (c & r & -> & Hc).
  simpl. by rewrite (value_start_not_ws _ Hc).
Qed.

Lemma strip_bracket_dumps v lvl rest :
  strip_prefix "]" (dumps_at lvl v +:+ rest) = None.
Proof.
  destruct (dumps_head v lvl rest) as (c & r & -> & Hc).
  revert Hc. destruct c as [[] [] [] [] [] [] [] []]; vm_compute; congruence.
Qed.

Lemma skip_ws_spaces n s : skip_ws (repeat_string "  " n +:+ s) = skip_ws s.
Proof. induction n as [|n IH]; [reflexivity|]. simpl repeat_string. by rewrite app_assoc_s. Qed.

Lemma skip_ws_indent lvl s : skip_ws (newline_indent lvl +:+ s) = skip_ws s.
Proof. unfold newline_indent. rewrite app_assoc_s. apply skip_ws_spaces. Qed.

Lemma parse_items_dump lvl R xs : forall x fv fi,
  Forall roundtrips (x :: xs) ->
  distinct_items (x :: xs) = true ->
  (need_items (x :: xs) <= fv)%nat -> (need_items (x :: xs) <= fi)%nat ->
  parse_items (parse_value fv) fi
    (dumps_at (S lvl) x +:+ dump_items lvl false xs +:+ newline_indent lvl +:+ "]" +:+ R)
  = Some (x :: xs, R).
Proof.
  induction xs as [|y ys IH]; intros x fv fi Hall Hd Hfv Hfi.
  - destruct fi as [|fi]; [simpl in Hfi; lia|].
    apply Forall_cons_1 in Hall as [Hx _].
    simpl in Hd. apply andb_true_iff in Hd as [Hdx _].
    simpl parse_items. rewrite app_empty_l.
    rewrite Hx; [|done|simpl in Hfv; lia|reflexivity].
    rewrite skip_ws_indent. reflexivity.
  - destruct fi as [|fi]; [simpl in Hfi; lia|].
    apply Forall_cons_1 in Hall as [Hx Hall].
    change (distinct_items (x :: y :: ys)) with (distinct_keys x && distinct_items (y :: ys)) in Hd.
    apply andb_true_iff in Hd as [Hdx Hd].
    change (need_items (x :: y :: ys)) with (S (need x) + need_items (y :: ys))%nat in Hfv, Hfi.
    rewrite dump_items_cons, !app_assoc_s, app_cons, app_empty_l.
    cbn [parse_items].
    rewrite Hx; [|done|lia|reflexivity].
    rewrite skip_ws_nonws by reflexivity. cbv iota beta.
    rewrite skip_ws_indent, skip_ws_dumps.
    rewrite (IH y fv fi Hall Hd); [reflexivity|lia|lia].
Qed.

Lemma parse_members_dump lvl R kvs : forall k x fv fi,
  Forall (fun kv => roundtrips (snd kv)) ((k, x) :: kvs) ->
  distinct_members ((k, x) :: kvs) = true ->
  (need_members ((k, x) :: kvs) <= fv)%nat -> (need_members ((k, x) :: kvs) <= fi)%nat ->
  parse_members (parse_value fv) fi
    (encode_string k +:+ ": " +:+ dumps_at (S lvl) x +:+ dump_members lvl false kvs
     +:+ newline_indent lvl +:+ "}" +:+ R)
  = Some ((k, x) :: kvs, R).
Proof.
  induction kvs as [|[k' y] kvs IH]; intros k x fv fi Hall Hd Hfv Hfi.
  - destruct fi as [|fi]; [simpl in Hfi; lia|].
    apply Forall_cons_1 in Hall as [Hx _]. simpl in Hx.
    simpl in Hd. apply andb_true_iff in Hd as [Hdx _].
    destruct (scan_encode_string k
      (": " +:+ dumps_at (S lvl) x +:+ dump_members lvl false []
       +:+ newline_indent lvl +:+ "}" +:+ R)) as (body & -> & Hscan).
    cbn [parse_members]. rewrite Hscan.
    rewrite app_cons, skip_ws_nonws by reflexivity. cbv iota beta.
    rewrite app_cons, app_empty_l.
    change (skip_ws (String " " ?s)) with (skip_ws s).
    rewrite skip_ws_dumps.
    rewrite Hx; [|done|simpl in Hfv; lia|reflexivity].
    change (dump_members lvl false []) with "". rewrite app_empty_l.
    rewrite skip_ws_indent. reflexivity.
  - destruct fi as [|fi]; [simpl in Hfi; lia|].
    apply Forall_cons_1 in Hall as [Hx Hall]. simpl in Hx.
    change (distinct_members ((k, x) :: (k', y) :: kvs))
      with (distinct_keys x && distinct_members ((k', y) :: kvs)) in Hd.
    apply andb_true_iff in Hd as [Hdx Hd].
    change (need_members ((k, x) :: (k', y) :: kvs))
      with (S (need x) + need_members ((k', y) :: kvs))%nat in Hfv, Hfi.
    destruct (scan_encode_string k
      (": " +:+ dumps_at (S lvl) x +:+ dump_members lvl false ((k', y) :: kvs)
       +:+ newline_indent lvl +:+ "}" +:+ R)) as (body & -> & Hscan).
    cbn [parse_members]. rewrite Hscan.
    rewrite app_cons, skip_ws_nonws by reflexivity. cbv iota beta.
    rewrite app_cons, app_empty_l.
    change (skip_ws (String " " ?s)) with (skip_ws s).
    rewrite skip_ws_dumps.
    rewrite dump_members_cons, !app_assoc_s, app_cons, app_empty_l.
    rewrite Hx; [|done|lia|reflexivity].
    rewrite skip_ws_nonws by reflexivity. cbv iota beta.
    rewrite skip_ws_indent.
    assert (skip_ws (encode_string k' +:+ ": " +:+ dumps_at (S lvl) y +:+
                     dump_members lvl false kvs +:+ newline_indent lvl +:+ "}" +:+ R)
            = encode_string k' +:+ ": " +:+ dumps_at (S lvl) y +:+
              dump_members lvl false kvs +:+ newline_indent lvl +:+ "}" +:+ R) as ->.
    { unfold encode_string. rewrite app_cons. apply skip_ws_nonws. reflexivity. }
    rewrite (IH k' y fv fi Hall Hd); [reflexivity|lia|lia].
Qed.

Lemma dict_set_fresh d k v :
  k ∉ fst <$> d -> dict_set d k v = d ++ [(k, v)].
Proof.
  induction d as [|[k' v'] d IH]; intros Hk; [reflexivity|].
  simpl in *. apply not_elem_of_cons in Hk as [Hne Hk].
  destruct (String.eqb_spec k' k) as [->|_]; [done|]. by rewrite IH.
Qed.

Lemma fold_dict_set l : forall acc,
  NoDup (fst <$> (acc ++ l)) ->
  fold_left (fun d kv => dict_set d (fst kv) (snd kv)) l acc = acc ++ l.
Proof.
  induction l as [|[k v] l IH]; intros acc Hnd; simpl.
  - by rewrite app_nil_r.
  - rewrite dict_set_fresh.
    + rewrite IH; rewrite <- app_assoc; [reflexivity|exact Hnd].
    + rewrite fmap_app in Hnd. apply NoDup_app in Hnd as (_ & Hdisj & _).
      intros Hin. apply (Hdisj k Hin). simpl. left.
Qed.

Lemma dict_of_pairs_distinct l :
  NoDup (fst <$> l) -> dict_of_pairs l = l.
Proof. intros H. unfold dict_of_pairs. by rewrite fold_dict_set. Qed.

Lemma strip_brace_string k rest :
  strip_prefix "}" (encode_string k +:+ rest) = None.
Proof. reflexivity. Qed.

Theorem parse_dumps v : roundtrips v.
Proof.
  induction v as [| b | z | s | items IH | members IH] using json_ind;
    intros lvl rest n Hd Hn Hrest;
    (destruct n as [|n]; [simpl in Hn; lia|]).
  - reflexivity.
  - destruct b; reflexivity.
  - simpl dumps_at.
    destruct (dumps_head (JInt z) lvl rest) as (c & r & E & Hc).
    simpl dumps_at in E. cbn [parse_value].
    pose proof (scan_int_string_of_Z z rest Hrest) as Hscan.
    rewrite E in Hscan |- *.
    assert (is_digit c || Ascii.eqb c "-" = true) as ->.
    { revert E. unfold string_of_Z, string_of_N. destruct (z <? 0).
      - rewrite app_assoc_s, app_cons. intros [= <- _]. reflexivity.
      - intros E.
        destruct (string_of_uint_head (N.to_uint (Z.to_N z)) rest) as (c' & r' & E' & Hc').
        + intros E0. pose proof (to_uint_normal (Z.to_N z)) as Hnorm. by rewrite E0 in Hnorm.
        + rewrite E in E'. injection E' as -> ->. by rewrite Hc'. }
    by rewrite Hscan.
  - destruct (scan_encode_string s rest) as (body & E & Hscan).
    simpl dumps_at. rewrite E. cbn [parse_value]. cbn. by rewrite Hscan.
  - destruct items as [|x xs]; [reflexivity|].
    rewrite dumps_list, dump_items_cons, !app_assoc_s, app_cons, !app_empty_l.
    cbn [parse_value]. cbn [is_digit code N_of_ascii orb andb Ascii.eqb].
    change (is_digit "[" || Ascii.eqb "[" "-") with false. cbv iota beta zeta.
    rewrite skip_ws_indent, skip_ws_dumps, strip_bracket_dumps.
    change (need (JList (x :: xs))) with (S (need_items (x :: xs))) in Hn.
    rewrite (parse_items_dump lvl rest xs x n n); [reflexivity|exact IH|exact Hd|lia|lia].
  - destruct members as [|[k x] kvs]; [reflexivity|].
    simpl in Hd. apply andb_true_iff in Hd as [Hnd Hd].
    apply bool_decide_eq_true in Hnd.
    rewrite dumps_obj, dump_members_cons, !app_assoc_s, app_cons, !app_empty_l.
    cbn [parse_value].
    change (is_digit "{" || Ascii.eqb "{" "-") with false. cbv iota beta zeta.
    rewrite skip_ws_indent.
    assert (forall t, skip_ws (encode_string k +:+ t) = encode_string k +:+ t) as ->.
    { intros t. unfold encode_string. rewrite app_cons. apply skip_ws_nonws. reflexivity. }
    rewrite strip_brace_string.
    change (need (JObj ((k, x) :: kvs))) with (S (need_members ((k, x) :: kvs))) in Hn.
    rewrite (parse_members_dump lvl rest kvs k x n n); [|exact IH|exact Hd|lia|lia].
    by rewrite dict_of_pairs_distinct.
Qed.

Lemma length_newline_indent lvl : (3 <= String.length (newline_indent (S lvl)))%nat.
Proof.
  unfold newline_indent. simpl repeat_string. rewrite !length_app_s. simpl. lia.
Qed.

Lemma need_items_length lvl l : forall first,
  Forall (fun v => forall lvl, (need v <= S (String.length (dumps_at lvl v)))%nat) l ->
  (need_items l <= String.length (dump_items lvl first l))%nat.
Proof.
  induction l as [|x xs IH]; intros first Hall; [simpl; lia|].
  apply Forall_cons_1 in Hall as [Hx Hall].
  rewrite dump_items_cons, !length_app_s.
  change (need_items (x :: xs)) with (S (need x) + need_items xs)%nat.
  pose proof (length_newline_indent lvl). specialize (Hx (S lvl)).
  specialize (IH false Hall). lia.
Qed.

Lemma need_members_length lvl l : forall first,
  Forall (fun kv => forall lvl,
            (need (snd kv) <= S (String.length (dumps_at lvl (snd kv))))%nat) l ->
  (need_members l <= String.length (dump_members lvl first l))%nat.
Proof.
  induction l as [|[k x] kvs IH]; intros first Hall; [simpl; lia|].
  apply Forall_cons_1 in Hall as [Hx Hall]. simpl in Hx.
  rewrite dump_members_cons, !length_app_s.
  change (need_members ((k, x) :: kvs)) with (S (need x) + need_members kvs)%nat.
  pose proof (length_newline_indent lvl). specialize (Hx (S lvl)).
  specialize (IH false Hall). lia.
Qed.

Lemma need_le_length v : forall lvl,
  (need v <= S (String.length (dumps_at lvl v)))%nat.
Proof.
  induction v as [| b | z | s | items IH | members IH] using json_ind; intros lvl;
    try (simpl need; lia).
  - destruct items as [|x xs]; [simpl; lia|].
    rewrite dumps_list, !length_app_s.
    change (need (JList (x :: xs))) with (S (need_items (x :: xs))).
    pose proof (need_items_length lvl (x :: xs) true IH). simpl String.length at 1. lia.
  - destruct members as [|kv kvs]; [simpl; lia|].
    rewrite dumps_obj, !length_app_s.
    change (need (JObj (kv :: kvs))) with (S (need_members (kv :: kvs))).
    pose proof (need_members_length lvl (kv :: kvs) true IH). simpl String.length at 1. lia.
Qed.

Theorem loads_dumps v : distinct_keys v = true -> loads (dumps v) = Some v.
Proof.
  intros Hd. unfold loads, dumps.
  rewrite <- (app_empty_r (dumps_at 0 v)) at 2.
  rewrite skip_ws_dumps.
  rewrite parse_dumps; [reflexivity|exact Hd| |reflexivity].
  pose proof (need_le_length v 0). lia.
Qed.

(** ** Substrings *)

Lemma prefix_cons a s1 b s2 :
  String.prefix (String a s1) (String b s2) = Ascii.eqb a b && String.prefix s1 s2.
Proof.
  simpl. destruct (ascii_dec a b) as [->|Hne].
  - by rewrite Ascii.eqb_refl.
  - apply Ascii.eqb_neq in Hne. by rewrite Hne.
Qed.






(** ** Running methods *)

Lemma bind_unfold {A B} (m : M A) (k : A -> M B) w :
  (m ≫= k) w =
  match m w with
  | (Ok a, w') => k a w'
  | (Raise e, w') => (Raise e, w')
  end.
Proof. reflexivity. Qed.

Lemma bind_ok {A B} (m : M A) (k : A -> M B) w a w' :
  m w = (Ok a, w') -> (m ≫= k) w = k a w'.
Proof. intros H. by rewrite bind_unfold, H. Qed.

Lemma bind_raise {A B} (m : M A) (k : A -> M B) w e w' :
  m w = (Raise e, w') -> (m ≫= k) w = (Raise e, w').
Proof. intros H. by rewrite bind_unfold, H. Qed.

Lemma bind_lift {A B} (r : result A) (k : A -> M B) w :
  (lift r ≫= k) w =
  match r with
  | Ok a => k a w
  | Raise e => (Raise e, w)
  end.
Proof. rewrite bind_unfold. unfold lift. by destruct r. Qed.

Lemma bind_print {B} text (k : () -> M B) w :
  (print text ≫= k) w = k () (printed text w).
Proof. reflexivity. Qed.

Section Loading.

Variable cfg : config.

Lemma load_test_results_stored key w :
  load_test_results cfg key w =
  (match stored (result_path cfg key) w with
   | Some v => Ok v
   | None => Raise JSONDecodeError
   end, w).
Proof.
  unfold load_test_results, path_exists, read_json, stored. rewrite bind_unfold.
  destruct (files w !! result_path cfg key) as [text|] eqn:H.
  - rewrite bool_decide_eq_true_2 by eauto. simpl. rewrite H. by destruct (loads text).
  - rewrite bool_decide_eq_false_2; [reflexivity|]. by intros [? ?].
Qed.

Lemma load_schema_stored key w :
  load_schema cfg key w =
  (match stored (schema_path cfg key) w with
   | Some v => Ok v
   | None => Raise JSONDecodeError
   end, w).
Proof.
  unfold load_schema, path_exists, read_json, stored. rewrite bind_unfold.
  destruct (files w !! schema_path cfg key) as [text|] eqn:H.
  - rewrite bool_decide_eq_true_2 by eauto. simpl. rewrite H. by destruct (loads text).
  - rewrite bool_decide_eq_false_2; [reflexivity|]. by intros [? ?].
Qed.

(** ** The analysis loop *)

Lemma suggested_cons key e es :
  suggested cfg key (e :: es) =
  match fix_for cfg key (lower e) with
  | Some entry => entry :: suggested cfg key es
  | None => suggested cfg key es
  end.
Proof. reflexivity. Qed.

Lemma analyze_errors_strings key es : forall fixes,
  analyze_errors cfg key (JStr <$> es) fixes = Ok (fixes ++ suggested cfg key es).
Proof.
  induction es as [|e es IH]; intros fixes.
  - simpl. by rewrite app_nil_r.
  - rewrite suggested_cons, fmap_cons. cbn [analyze_errors py_lower rbind].
    rewrite IH. destruct (fix_for cfg key (lower e)); [by rewrite <- app_assoc|reflexivity].
Qed.

Lemma all_strings items :
  forallb is_string items = true -> items = JStr <$> strings_of (JList items).
Proof.
  induction items as [|x items IH]; [reflexivity|]. simpl.
  intros [Hx H]%andb_true_iff. destruct x; try discriminate. simpl.
  f_equal. by apply IH.
Qed.

Lemma length_suggested key es : (length (suggested cfg key es) <= length es)%nat.
Proof.
  induction es as [|e es IH]; [reflexivity|].
  rewrite suggested_cons. destruct (fix_for cfg key (lower e)); simpl; lia.
Qed.

Lemma schema_snippet_ok schema :
  is_schema schema = true -> schema_snippet schema = Ok (snippet_of schema) \/ truthy schema = false.
Proof.
  destruct schema as [| | | | |members]; try discriminate. intros H.
  destruct members as [|kv members]; [by right|left].
  unfold snippet_of, schema_snippet. cbn [truthy py_get rbind field].
  unfold is_schema in H. unfold field, py_in, py_len.
  destruct (dict_lookup (kv :: members) "groups") as [[]|]; try discriminate; reflexivity.
Qed.

Lemma get_fix_suggestions_run key w tr :
  stored (result_path cfg key) w = Some tr -> is_test_result tr = true ->
  get_fix_suggestions cfg key w =
  (match stored (schema_path cfg key) w with
   | None => Raise JSONDecodeError
   | Some schema =>
       match (if truthy schema then schema_snippet schema else Ok (JObj [])) with
       | Ok snippet => Ok (with_snippet cfg key tr snippet)
       | Raise e => Raise e
       end
   end, w).
Proof.
  intros Hr Hwf. unfold get_fix_suggestions.
  rewrite bind_unfold, load_test_results_stored, Hr.
  rewrite bind_unfold, load_schema_stored.
  destruct (stored (schema_path cfg key) w) as [schema|]; [|reflexivity].
  destruct tr as [| | | | |members]; try discriminate.
  unfold is_test_result in Hwf.
  destruct (dict_lookup members "success") as [[]|] eqn:Hsucc; try discriminate.
  apply andb_true_iff in Hwf as [He Hw].
  assert (truthy (JObj members) = true) as ->.
  { destruct members; [discriminate|reflexivity]. }
  cbn [negb py_get]. rewrite !bind_lift.
  unfold with_snippet. cbn [field].
  set (errors := match dict_lookup members "errors" with Some x => x | None => JList [] end).
  assert (exists items, errors = JList items /\ forallb is_string items = true)
    as (items & Hi & Hall).
  { subst errors. destruct (dict_lookup members "errors") as [[]|]; try discriminate.
    - eauto.
    - exists []. eauto. }
  rewrite Hi. cbn [py_iter].
  pose proof (analyze_errors_strings key (strings_of (JList items)) []) as Han.
  rewrite <- (all_strings _ Hall) in Han. cbn [app] in Han.
  rewrite bind_lift, Han.
  destruct (truthy schema).
  - rewrite bind_lift. by destruct (schema_snippet schema).
  - reflexivity.
Qed.

Lemma get_fix_suggestions_returned key w tr suggestions w' :
  stored (result_path cfg key) w = Some tr -> is_test_result tr = true ->
  get_fix_suggestions cfg key w = (Ok suggestions, w') ->
  exists snippet, suggestions = with_snippet cfg key tr snippet.
Proof.
  intros Hr Hwf. rewrite (get_fix_suggestions_run _ _ _ Hr Hwf).
  destruct (stored (schema_path cfg key) w) as [schema|]; [|discriminate].
  destruct (if truthy schema then schema_snippet schema else Ok (JObj []))
    as [snippet|]; [|discriminate].
  intros [= <- _]. by exists snippet.
Qed.

Lemma get_fix_suggestions_stored key w tr schema :
  stored (result_path cfg key) w = Some tr -> is_test_result tr = true ->
  stored (schema_path cfg key) w = Some schema -> is_schema schema = true ->
  get_fix_suggestions cfg key w = (Ok (suggestions_for cfg key tr schema), w).
Proof.
  intros Hr Hwf Hs Hswf. rewrite (get_fix_suggestions_run _ _ _ Hr Hwf), Hs.
  unfold suggestions_for, snippet_of.
  destruct (schema_snippet_ok _ Hswf) as [Hsn|Hf].
  - destruct (truthy schema) eqn:Ht; [|reflexivity].
    rewrite Hsn. unfold snippet_of. by rewrite Ht.
  - by rewrite Hf.
Qed.

Lemma get_fix_suggestions_total key w tr :
  stored (result_path cfg key) w = Some tr -> is_test_result tr = true ->
  schema_store_ok cfg key w ->
  exists suggestions, get_fix_suggestions cfg key w = (Ok suggestions, w).
Proof.
  intros Hr Hwf (schema & Hs & Hswf). eexists. by apply get_fix_suggestions_stored.
Qed.

End Loading.

(** ** The stores *)

Lemma stored_absent path w : files w !! path = None -> stored path w = Some (JObj []).
Proof. unfold stored. by intros ->. Qed.

Lemma examined_load_schema stat_error cfg key w :
  stat_error (schema_path cfg key) = None ->
  Examined.load_schema stat_error cfg key w = load_schema cfg key w.
Proof.
  intros H. unfold Examined.load_schema, load_schema.
  rewrite !bind_unfold. unfold Examined.path_exists. by rewrite H.
Qed.

Lemma examined_load_test_results stat_error cfg key w :
  stat_error (result_path cfg key) = None ->
  Examined.load_test_results stat_error cfg key w = load_test_results cfg key w.
Proof.
  intros H. unfold Examined.load_test_results, load_test_results.
  rewrite !bind_unfold. unfold Examined.path_exists. by rewrite H.
Qed.

(** C8 (amended): for a key whose schema file (respectively result file)
    does not exist and whose path the system does not refuse to look at,
    loading from the schema store (respectively the test-result store)
    returns the empty mapping; nothing is raised and the world is left as
    it was. *)
Theorem load_absent_is_empty stat_error cfg key w :
  (stat_error (schema_path cfg key) = None ->
   files w !! schema_path cfg key = None ->
   Examined.load_schema stat_error cfg key w = (Ok (JObj []), w)) /\
  (stat_error (result_path cfg key) = None ->
   files w !! result_path cfg key = None ->
   Examined.load_test_results stat_error cfg key w = (Ok (JObj []), w)).
Proof.
  split; intros Hstat H.
  - by rewrite (examined_load_schema _ _ _ _ Hstat), load_schema_stored,
      (stored_absent _ _ H).
  - by rewrite (examined_load_test_results _ _ _ _ Hstat), load_test_results_stored,
      (stored_absent _ _ H).
Qed.

Lemma load_absent_is_empty_witness :
  Examined.load_schema name_limit default_config "furnace" empty_world
    = (Ok (JObj []), empty_world) /\
  Examined.load_test_results name_limit default_config "furnace" empty_world
    = (Ok (JObj []), empty_world).
Proof.
  destruct (load_absent_is_empty name_limit default_config "furnace" empty_world)
    as [H1 H2].
  split; [apply H1 | apply H2]; reflexivity.
Defined.

(** C8 as stated fails for a key whose file name is longer than the file
    system allows: no such file exists, and both loaders raise [OSError]
    from the existence test. *)
Lemma load_absent_can_raise :
  files empty_world !! schema_path default_config long_key = None /\
  Examined.load_schema name_limit default_config long_key empty_world
  = (Raise (OSError ("[Errno 36] File name too long: "
                     +:+ repr_string (schema_path default_config long_key))),
     empty_world) /\
  files empty_world !! result_path default_config long_key = None /\
  Examined.load_test_results name_limit default_config long_key empty_world
  = (Raise (OSError ("[Errno 36] File name too long: "
                     +:+ repr_string (result_path default_config long_key))),
     empty_world).
Proof. repeat split; vm_compute; reflexivity. Qed.

Lemma stored_written path text w :
  stored path (written path text w) = loads text.
Proof. unfold stored, written. cbn [files]. by rewrite lookup_insert_eq. Qed.

Lemma stored_written_other path path' text w :
  path <> path' -> stored path' (written path text w) = stored path' w.
Proof. intros H. unfold stored, written. cbn [files]. by rewrite lookup_insert_ne. Qed.

Lemma stored_eprinted path text w : stored path (eprinted text w) = stored path w.
Proof. reflexivity. Qed.

Lemma open_w_run path w :
  unwritable w !! path = None -> open_w path w = (Ok (), written path "" w).
Proof. intros Hw. unfold open_w. by rewrite Hw. Qed.

Lemma append_after_open path text w :
  append_text path text (written path "" w) = (Ok (), written path text w).
Proof.
  unfold append_text, written. cbn [files unwritable stdout stderr].
  by rewrite lookup_insert_eq, insert_insert_eq.
Qed.

Lemma save_schema_run cfg dump_fault key doc w :
  save_schema cfg dump_fault key doc w =
  match unwritable w !! schema_path cfg key with
  | Some msg => (Ok false, eprinted ("Error saving schema: " +:+ msg) w)
  | None =>
      match dump_fault doc with
      | Some (begun, e) =>
          (Ok false, eprinted ("Error saving schema: " +:+ exn_str e)
                       (written (schema_path cfg key) begun w))
      | None => (Ok true, written (schema_path cfg key) (dumps doc) w)
      end
  end.
Proof.
  unfold save_schema, try_except.
  destruct (unwritable w !! schema_path cfg key) as [msg|] eqn:Hw.
  - rewrite bind_unfold. unfold open_w. by rewrite Hw.
  - rewrite (bind_ok _ _ _ _ _ (open_w_run _ _ Hw)). unfold json_dump.
    destruct (dump_fault doc) as [[begun e]|].
    + by rewrite !bind_unfold, append_after_open.
    + by rewrite bind_unfold, append_after_open.
Qed.




(** ** The remote calls *)

Lemma post_command_run cfg remote command key w :
  post_command cfg remote command key w =
  (match remote (command_request cfg command key) with
   | Replies body => Ok body
   | PostRaises msg | StatusRaises msg | JsonRaises msg => Raise (RequestException msg)
   end, w).
Proof.
  unfold post_command, command_request.
  destruct (remote _); reflexivity.
Qed.

Lemma test_schema_fails cfg remote key w msg :
  failure_message (remote (command_request cfg "test_machine_ui_schema" key)) = Some msg ->
  test_schema cfg remote key w =
  (Ok (JObj [("success", JBool false); ("error", JStr msg)]), w).
Proof.
  intros H. unfold test_schema, try_except. rewrite bind_unfold, post_command_run.
  destruct (remote _); simplify_eq/=; reflexivity.
Qed.



Lemma reload_schema_returns cfg remote key w :
  exists reloaded w',
    reload_schema cfg remote key w = (Ok reloaded, w') /\
    files w' = files w /\ stdout w' = stdout w.
Proof.
  unfold reload_schema, try_except. rewrite bind_unfold, post_command_run.
  destruct (remote _) as [msg|msg|msg|body]; try (eexists _, _; split; [reflexivity|done]).
  unfold lift. destruct (py_get body "success" (JBool false));
    eexists _, _; (split; [reflexivity|done]).
Qed.

(** C6: in the verify flow, when the test call reports success, the reload
    call that follows always returns, and whatever it returns the flow
    returns [{success: True, test_result: ...}] with the test result as
    received; a reload that did not succeed only changes the last line
    printed, which is then the warning. *)
Theorem verify_fix_reload_is_not_fatal cfg remote key w test_result w1 success :
  test_schema cfg remote key (printed ("Verifying fix for: " +:+ key) w)
    = (Ok test_result, w1) ->
  py_get test_result "success" JNull = Ok success ->
  truthy success = true ->
  exists reloaded w2,
    reload_schema cfg remote key
      (printed "Reloading schema in app..."
         (printed ("✓ Schema for " +:+ key +:+ " is now valid!") w1))
      = (Ok reloaded, w2) /\
    verify_fix cfg remote key w =
      (Ok (JObj [("success", JBool true); ("test_result", test_result)]),
       printed (if truthy reloaded then "✓ Schema reloaded successfully!"
                else "⚠ Could not reload schema (app may not be running)") w2).
Proof.
  intros Htest Hget Hsucc.
  destruct (reload_schema_returns cfg remote key
              (printed "Reloading schema in app..."
                 (printed ("✓ Schema for " +:+ key +:+ " is now valid!") w1)))
    as (reloaded & w2 & Hreload & _ & _).
  exists reloaded, w2. split; [exact Hreload|].
  unfold verify_fix. rewrite bind_print, (bind_ok _ _ _ _ _ Htest).
  rewrite bind_lift, Hget. cbv iota beta. rewrite Hsucc.
  rewrite !bind_print, (bind_ok _ _ _ _ _ Hreload).
  destruct (truthy reloaded); reflexivity.
Qed.

Lemma verify_fix_reload_is_not_fatal_witness :
  exists w3,
    verify_fix default_config approving "furnace" empty_world =
      (Ok (JObj [("success", JBool true);
                 ("test_result", JObj [("success", JBool true)])]), w3) /\
    last (stdout w3) = Some "⚠ Could not reload schema (app may not be running)".
Proof.
  destruct (verify_fix_reload_is_not_fatal default_config approving "furnace" empty_world
              (JObj [("success", JBool true)])
              (World {[result_path default_config "furnace" :=
                         dumps (JObj [("success", JBool true)])]} ∅
                 ["Verifying fix for: furnace"] [])
              (JBool true))
    as (reloaded & w2 & Hreload & Hverify); [reflexivity..|].
  vm_compute in Hreload. injection Hreload as <- <-.
  eexists. split; [exact Hverify|]. reflexivity.
Defined.

(** ** The fix workflow without a stored result *)

Lemma get_fix_suggestions_absent cfg key w schema :
  files w !! result_path cfg key = None ->
  stored (schema_path cfg key) w = Some schema ->
  get_fix_suggestions cfg key w = (Ok no_test_results, w).
Proof.
  intros Hr Hs. unfold get_fix_suggestions.
  rewrite bind_unfold, load_test_results_stored, (stored_absent _ _ Hr).
  rewrite bind_unfold, load_schema_stored, Hs. reflexivity.
Qed.

Lemma generate_llm_prompt_absent cfg key w schema :
  files w !! result_path cfg key = None ->
  stored (schema_path cfg key) w = Some schema ->
  generate_llm_prompt cfg key w = (Raise (KeyError "schema_file"), w).
Proof.
  intros Hr Hs. unfold generate_llm_prompt.
  rewrite (bind_ok _ _ _ _ _ (get_fix_suggestions_absent _ _ _ _ Hr Hs)).
  rewrite bind_unfold, load_schema_stored, Hs. reflexivity.
Qed.

(** C1 (code bug): when the test call fails and no result file exists for
    the key, [run_fix_workflow] does not return its result object:
    [generate_llm_prompt] reads [schema_file] from the sentinel that
    [get_fix_suggestions] returned, and the workflow ends with an uncaught
    [KeyError]; no file is written. *)
Theorem run_fix_workflow_without_results cfg remote key w msg schema :
  failure_message (remote (command_request cfg "test_machine_ui_schema" key)) = Some msg ->
  files w !! result_path cfg key = None ->
  stored (schema_path cfg key) w = Some schema ->
  exists w',
    run_fix_workflow cfg remote key w = (Raise (KeyError "schema_file"), w') /\
    files w' = files w.
Proof.
  intros Hfail Hr Hs. eexists. unfold run_fix_workflow.
  rewrite !bind_print, (bind_ok _ _ _ _ _ (test_schema_fails _ _ _ _ _ Hfail)).
  rewrite bind_lift. cbn [py_get dict_lookup String.eqb Ascii.eqb Bool.eqb truthy].
  rewrite bind_print. set (w2 := printed "2. Analyzing issues..." _).
  rewrite (bind_ok _ _ w2 _ _ (get_fix_suggestions_absent cfg key w2 schema Hr Hs)).
  rewrite bind_print. set (w3 := printed "3. Generating fix prompt..." _).
  rewrite (bind_raise _ _ w3 _ _ (generate_llm_prompt_absent cfg key w3 schema Hr Hs)).
  split; reflexivity.
Qed.

Lemma run_fix_workflow_without_results_witness :
  fst (run_fix_workflow default_config unreachable "furnace" empty_world)
  = Raise (KeyError "schema_file").
Proof.
  destruct (run_fix_workflow_without_results default_config unreachable "furnace"
              empty_world "Connection refused" (JObj []))
    as (w' & -> & _); reflexivity.
Defined.

(** ** The suggestion generator *)


Lemma strings_of_strings es : strings_of (JList (JStr <$> es)) = es.
Proof.
  induction es as [|e es IH]; [reflexivity|].
  change (strings_of (JList (JStr <$> e :: es)))
    with (e :: strings_of (JList (JStr <$> es))).
  by rewrite IH.
Qed.

Lemma suggested_app cfg key es1 es2 :
  suggested cfg key (es1 ++ es2) = suggested cfg key es1 ++ suggested cfg key es2.
Proof. apply omap_app. Qed.

Lemma prefix_contains needle : forall p s,
  String.prefix (p +:+ needle) s = true -> contains needle s = true.
Proof.
  induction p as [|c p IH]; intros s H.
  - rewrite app_empty_l in H. destruct s; cbn [contains]; by rewrite H.
  - destruct s as [|y s]; [discriminate|].
    rewrite app_cons, prefix_cons in H. apply andb_true_iff in H as [_ H].
    cbn [contains]. rewrite (IH _ H). apply orb_true_r.
Qed.

Lemma contains_longer p needle s :
  contains (p +:+ needle) s = true -> contains needle s = true.
Proof.
  induction s as [|y s IH]; cbn [contains].
  - rewrite orb_false_r. apply prefix_contains.
  - intros [H|H]%orb_true_iff.
    + by apply prefix_contains in H.
    + rewrite (IH H). apply orb_true_r.
Qed.

Lemma no_file_not_found s :
  contains "not found" s = false -> contains "file not found" s = false.
Proof.
  intros H. destruct (contains "file not found" s) eqn:E; [|reflexivity].
  apply (contains_longer "file " "not found") in E. congruence.
Qed.

Lemma fixes_of_with_snippet cfg key tr snippet :
  field (with_snippet cfg key tr snippet) "fixes_needed" JNull =
  JList (suggested cfg key (strings_of (field tr "errors" (JList [])))).
Proof. reflexivity. Qed.

Lemma errors_of_with_snippet cfg key tr snippet :
  field (with_snippet cfg key tr snippet) "errors" JNull = field tr "errors" (JList []).
Proof. reflexivity. Qed.

(** C4: for a stored test result whose errors list holds the string
    [missing process label], the entry derived from that error in any
    suggestions returned is the one with issue [Missing process label], in
    the position of the error, and no other entry is derived from it; the
    generator does return when the schema file is absent or holds a schema
    document.  The [missing] tier comes before the [invalid]/[flow] tier:
    a lower-cased error without [not found] and [header] that has
    [missing], [process] and [label] gets that entry whether or not it
    also has [invalid] or [flow]. *)
Theorem missing_tier_before_flow_tier cfg key w tr before after :
  stored (result_path cfg key) w = Some tr -> is_test_result tr = true ->
  field tr "errors" (JList []) = JList (JStr <$> before ++ "missing process label" :: after) ->
  (forall suggestions w',
     get_fix_suggestions cfg key w = (Ok suggestions, w') ->
     field suggestions "fixes_needed" JNull =
       JList (suggested cfg key before
              ++ JObj [("issue", JStr "Missing process label");
                       ("action", JStr "Add 'label.text' field to process in schema");
                       ("priority", JStr "high");
                       ("schema_section", JStr "process")]
              :: suggested cfg key after)) /\
  (schema_store_ok cfg key w ->
   exists suggestions, get_fix_suggestions cfg key w = (Ok suggestions, w)) /\
  (forall error_lower,
     contains "not found" error_lower = false ->
     contains "missing" error_lower = true ->
     contains "header" error_lower = false ->
     contains "process" error_lower = true ->
     contains "label" error_lower = true ->
     fix_for cfg key error_lower =
       Some (JObj [("issue", JStr "Missing process label");
                   ("action", JStr "Add 'label.text' field to process in schema");
                   ("priority", JStr "high");
                   ("schema_section", JStr "process")])).
Proof.
  intros Hr Hwf He. split; [|split].
  - intros suggestions w' Hrun.
    destruct (get_fix_suggestions_returned _ _ _ _ _ _ Hr Hwf Hrun) as (snippet & ->).
    rewrite fixes_of_with_snippet, He.
    by rewrite strings_of_strings, suggested_app.
  - by apply get_fix_suggestions_total with tr.
  - intros l H1 H2 H3 H4 H5. unfold fix_for.
    by rewrite H1, (no_file_not_found _ H1), H2, H3, H4, H5, orb_true_r.
Qed.

Lemma missing_tier_before_flow_tier_witness :
  exists suggestions,
    get_fix_suggestions default_config "furnace" label_world = (Ok suggestions, label_world) /\
    field suggestions "fixes_needed" JNull =
      JList [JObj [("issue", JStr "Invalid flow position");
                   ("action", JStr "Check group anchor positions relative to process anchor");
                   ("priority", JStr "medium");
                   ("schema_section", JStr "groups")];
             JObj [("issue", JStr "Missing process label");
                   ("action", JStr "Add 'label.text' field to process in schema");
                   ("priority", JStr "high");
                   ("schema_section", JStr "process")]].
Proof.
  destruct (missing_tier_before_flow_tier default_config "furnace" label_world
              label_result ["Invalid flow"] [])
    as (Hfixes & Hruns & _); [vm_compute; reflexivity..|].
  destruct Hruns as (suggestions & Hrun).
  - exists (JObj []). split; vm_compute; reflexivity.
  - exists suggestions. split; [exact Hrun|]. exact (Hfixes _ _ Hrun).
Defined.

(** C5: for a stored test result with [success] false, the one error
    [Schema validation failed: missing header in group 2] and no warnings,
    any suggestions returned hold exactly one entry under [fixes_needed];
    its issue is [Missing group header] and its priority is [high].  The
    generator does return when the schema file is absent or holds a schema
    document. *)
Theorem missing_header_scenario cfg key w tr :
  stored (result_path cfg key) w = Some tr -> is_test_result tr = true ->
  field tr "success" JNull = JBool false ->
  field tr "errors" (JList []) =
    JList [JStr "Schema validation failed: missing header in group 2"] ->
  field tr "warnings" (JList []) = JList [] ->
  (forall suggestions w',
     get_fix_suggestions cfg key w = (Ok suggestions, w') ->
     exists entry,
       field suggestions "fixes_needed" JNull = JList [entry] /\
       field entry "issue" JNull = JStr "Missing group header" /\
       field entry "priority" JNull = JStr "high") /\
  (schema_store_ok cfg key w ->
   exists suggestions, get_fix_suggestions cfg key w = (Ok suggestions, w)).
Proof.
  intros Hr Hwf _ He _. split.
  - intros suggestions w' Hrun.
    destruct (get_fix_suggestions_returned _ _ _ _ _ _ Hr Hwf Hrun) as (snippet & ->).
    rewrite fixes_of_with_snippet, He. eexists. split; [reflexivity|]. split; reflexivity.
  - by apply get_fix_suggestions_total with tr.
Qed.

Lemma missing_header_scenario_witness :
  exists suggestions entry,
    get_fix_suggestions default_config "furnace" header_world
      = (Ok suggestions, header_world) /\
    field suggestions "fixes_needed" JNull = JList [entry] /\
    field entry "issue" JNull = JStr "Missing group header" /\
    field entry "priority" JNull = JStr "high".
Proof.
  destruct (missing_header_scenario default_config "furnace" header_world header_result)
    as (Hfixes & Hruns); [vm_compute; reflexivity..|].
  destruct Hruns as (suggestions & Hrun).
  - exists (JObj []). split; vm_compute; reflexivity.
  - destruct (Hfixes _ _ Hrun) as (entry & H).
    exists suggestions, entry. split; [exact Hrun|exact H].
Defined.


(** A result file that holds the empty object is read as no result at
    all. *)
Lemma empty_result_file_gives_sentinel :
  fst (get_fix_suggestions default_config "furnace"
         (World {[result_path default_config "furnace" := "{}"]} ∅ [] []))
  = Ok no_test_results.
Proof. vm_compute. reflexivity. Qed.



(** C10 (amended): every error of a stored test result yields at most one
    entry: in any suggestions returned, [fixes_needed] is the list of the
    entries of the errors in order and is no longer than [errors]; the
    generator does return when the schema file is absent or holds a schema
    document.  An error that, lower-cased, does not contain [not found],
    contains [missing], does not contain [header] and does not contain
    both [process] and [label] yields no entry, also when it contains
    [invalid] or [flow]. *)
Theorem at_most_one_fix_per_error cfg key w tr :
  stored (result_path cfg key) w = Some tr -> is_test_result tr = true ->
  (forall suggestions w',
     get_fix_suggestions cfg key w = (Ok suggestions, w') ->
     exists errors,
       field suggestions "errors" JNull = JList (JStr <$> errors) /\
       field suggestions "fixes_needed" JNull =
         JList (omap (fun error => fix_for cfg key (lower error)) errors) /\
       (length (omap (fun error => fix_for cfg key (lower error)) errors)
        <= length errors)%nat) /\
  (schema_store_ok cfg key w ->
   exists suggestions, get_fix_suggestions cfg key w = (Ok suggestions, w)) /\
  (forall error,
     contains "not found" (lower error) = false ->
     contains "missing" (lower error) = true ->
     contains "header" (lower error) = false ->
     contains "process" (lower error) && contains "label" (lower error) = false ->
     fix_for cfg key (lower error) = None).
Proof.
  intros Hr Hwf. split; [|split].
  - intros suggestions w' Hrun.
    destruct (get_fix_suggestions_returned _ _ _ _ _ _ Hr Hwf Hrun) as (snippet & ->).
    exists (strings_of (field tr "errors" (JList []))).
    rewrite fixes_of_with_snippet, errors_of_with_snippet.
    split; [|split; [reflexivity|apply length_suggested]].
    destruct tr as [| | | | |members]; try discriminate. cbn [field].
    unfold is_test_result in Hwf.
    destruct (dict_lookup members "success") as [[]|]; try discriminate.
    apply andb_true_iff in Hwf as [He _].
    destruct (dict_lookup members "errors") as [[]|]; try discriminate; [|reflexivity].
    f_equal. by apply all_strings.
  - by apply get_fix_suggestions_total with tr.
  - intros error H1 H2 H3 H4. unfold fix_for.
    by rewrite H1, (no_file_not_found _ H1), H2, H3, H4, orb_true_r.
Qed.

Lemma at_most_one_fix_per_error_witness :
  (exists suggestions errors,
     get_fix_suggestions default_config "furnace" label_world
       = (Ok suggestions, label_world) /\
     field suggestions "errors" JNull = JList (JStr <$> errors) /\
     field suggestions "fixes_needed" JNull =
       JList (omap (fun error => fix_for default_config "furnace" (lower error)) errors) /\
     (length (omap (fun error => fix_for default_config "furnace" (lower error)) errors)
      <= length errors)%nat) /\
  fix_for default_config "furnace" (lower "Missing footer, invalid flow") = None.
Proof.
  destruct (at_most_one_fix_per_error default_config "furnace" label_world label_result)
    as (Hfixes & Hruns & Hnone); [vm_compute; reflexivity..|].
  split.
  - destruct Hruns as (suggestions & Hrun).
    + exists (JObj []). split; vm_compute; reflexivity.
    + destruct (Hfixes _ _ Hrun) as (errors & H).
      exists suggestions, errors. split; [exact Hrun|exact H].
  - apply Hnone; vm_compute; reflexivity.
Defined.

(** C10 as stated fails for an error that contains [missing], neither
    [header] nor [process], and also [not found]: the first rule fires and
    the error yields the entry [Schema file missing]. *)
Lemma missing_error_can_contribute :
  contains "missing" (lower "Missing schema: file not found") = true /\
  contains "header" (lower "Missing schema: file not found") = false /\
  contains "process" (lower "Missing schema: file not found") = false /\
  exists suggestions,
    get_fix_suggestions default_config "furnace" not_found_world
      = (Ok suggestions, not_found_world) /\
    field suggestions "fixes_needed" JNull =
      JList [JObj [("issue", JStr "Schema file missing");
                   ("action",
                    JStr "Create furnace_schema.json in FactoryForge/Assets");
                   ("priority", JStr "high")]].
Proof.
  repeat split; try (vm_compute; reflexivity).
  eexists. split; vm_compute; reflexivity.
Qed.

(** ** The prompt *)










(** ** Paths *)

Lemma app_equal_suffix (a b s t : string) :
  a +:+ s = b +:+ t -> String.length s = String.length t -> a = b /\ s = t.
Proof.
  revert b. induction a as [|x a IH]; intros [|y b] H Hlen.
  - by rewrite !app_empty_l in H.
  - rewrite app_empty_l in H. subst s. rewrite app_cons in Hlen.
    simpl in Hlen. rewrite length_app_s in Hlen. lia.
  - rewrite app_empty_l in H. subst t. rewrite app_cons in Hlen.
    simpl in Hlen. rewrite length_app_s in Hlen. lia.
  - rewrite !app_cons in H. injection H as -> H.
    destruct (IH _ H Hlen) as [-> ->]. done.
Qed.

Lemma result_path_not_schema_path cfg key key' :
  result_path cfg key <> schema_path cfg key'.
Proof.
  unfold result_path, schema_path, path_join. intros H.
  change "_test_raw.json" with ("_t" +:+ "est_raw.json") in H.
  rewrite <- !app_assoc_s in H.
  apply app_equal_suffix in H as [_ H]; [discriminate|reflexivity].
Qed.

Lemma prompt_path_not_result_path cfg key key' :
  prompt_path cfg key <> result_path cfg key'.
Proof.
  unfold result_path, prompt_path, path_join. intros H.
  rewrite <- !app_assoc_s in H.
  apply app_equal_suffix in H as [_ H]; [discriminate|reflexivity].
Qed.

Lemma prompt_path_not_schema_path cfg key key' :
  prompt_path cfg key <> schema_path cfg key'.
Proof.
  unfold schema_path, prompt_path, path_join. intros H.
  change "_fix_prompt.md" with ("_f" +:+ "ix_prompt.md") in H.
  rewrite <- !app_assoc_s in H.
  apply app_equal_suffix in H as [_ H]; [discriminate|reflexivity].
Qed.

Lemma schema_path_inj cfg key key' :
  schema_path cfg key = schema_path cfg key' -> key = key'.
Proof.
  unfold schema_path, path_join. intros H.
  rewrite <- !app_assoc_s in H.
  apply app_equal_suffix in H as [H _]; [|reflexivity].
  rewrite !app_assoc_s in H. by repeat apply (inj (String.app _)) in H.
Qed.

Lemma result_path_inj cfg key key' :
  result_path cfg key = result_path cfg key' -> key = key'.
Proof.
  unfold result_path, path_join. intros H.
  rewrite <- !app_assoc_s in H.
  apply app_equal_suffix in H as [H _]; [|reflexivity].
  rewrite !app_assoc_s in H. by repeat apply (inj (String.app _)) in H.
Qed.

(** ** [test_schema], [reload_schema], [save_schema] in full *)

Lemma test_schema_run cfg remote key w :
  test_schema cfg remote key w =
  match remote (command_request cfg "test_machine_ui_schema" key) with
  | Replies body =>
      match unwritable w !! result_path cfg key with
      | Some msg => (Ok (failed_test msg), w)
      | None => (Ok body, written (result_path cfg key) (dumps body) w)
      end
  | PostRaises msg | StatusRaises msg | JsonRaises msg => (Ok (failed_test msg), w)
  end.
Proof.
  unfold test_schema, try_except. rewrite bind_unfold, post_command_run.
  destruct (remote _) as [msg|msg|msg|body]; try reflexivity.
  rewrite bind_unfold. unfold write_text.
  destruct (unwritable w !! result_path cfg key); reflexivity.
Qed.

(** X1: a reply that can be stored is returned as it came and is what the
    next load of the key returns; nothing else changes. *)
Theorem test_schema_persists_reply cfg remote key w body :
  remote (command_request cfg "test_machine_ui_schema" key) = Replies body ->
  unwritable w !! result_path cfg key = None ->
  distinct_keys body = true ->
  exists w',
    test_schema cfg remote key w = (Ok body, w') /\
    load_test_results cfg key w' = (Ok body, w') /\
    files w' !! result_path cfg key = Some (dumps body) /\
    (forall path, path <> result_path cfg key -> files w' !! path = files w !! path) /\
    stdout w' = stdout w /\ stderr w' = stderr w.
Proof.
  intros Hreply Hw Hd. eexists. rewrite test_schema_run, Hreply, Hw.
  split; [reflexivity|]. split; [|split; [|split; [|split]]].
  - by rewrite load_test_results_stored, stored_written, (loads_dumps _ Hd).
  - apply lookup_insert_eq.
  - intros path Hne. cbn [files written]. by rewrite lookup_insert_ne.
  - reflexivity.
  - reflexivity.
Qed.

(** X2: [test_schema] never raises, prints nothing and leaves every file but
    the result file of its key alone.  A reply that cannot be stored is
    lost: the caller gets a failure with the message of the I/O error,
    whatever the service said, and no file changes. *)
Theorem test_schema_is_contained cfg remote key w :
  (exists result w',
     test_schema cfg remote key w = (Ok result, w') /\
     (forall path, path <> result_path cfg key -> files w' !! path = files w !! path) /\
     unwritable w' = unwritable w /\ stdout w' = stdout w /\ stderr w' = stderr w) /\
  (forall body msg,
     remote (command_request cfg "test_machine_ui_schema" key) = Replies body ->
     unwritable w !! result_path cfg key = Some msg ->
     test_schema cfg remote key w = (Ok (failed_test msg), w)).
Proof.
  rewrite test_schema_run. split.
  - destruct (remote _) as [msg|msg|msg|body]; try (eexists _, _; split; [reflexivity|done]).
    destruct (unwritable w !! result_path cfg key);
      eexists _, _; (split; [reflexivity|]); [done|].
    split; [|done]. intros path Hne. cbn [files written]. by rewrite lookup_insert_ne.
  - by intros body msg -> ->.
Qed.

Lemma reload_schema_run cfg remote key w :
  reload_schema cfg remote key w =
  match remote (command_request cfg "reload_machine_ui_schema" key) with
  | Replies body =>
      match py_get body "success" (JBool false) with
      | Ok success => (Ok success, w)
      | Raise e => (Ok (JBool false), eprinted ("Error reloading schema: " +:+ exn_str e) w)
      end
  | PostRaises msg | StatusRaises msg | JsonRaises msg =>
      (Ok (JBool false), eprinted ("Error reloading schema: " +:+ msg) w)
  end.
Proof.
  unfold reload_schema, try_except. rewrite bind_unfold, post_command_run.
  unfold lift.
  destruct (remote _) as [msg|msg|msg|body]; reflexivity.
Qed.

(** X3: what [reload_schema] returns.  An object reply gives its [success]
    member, [False] if it has none; a reply that is no object, and every
    failure of the call, gives [False] and one line on standard error.
    Nothing is raised; files and standard output stay as they were. *)
Theorem reload_schema_outcomes cfg remote key w :
  (forall members,
     remote (command_request cfg "reload_machine_ui_schema" key) = Replies (JObj members) ->
     reload_schema cfg remote key w =
       (Ok (match dict_lookup members "success" with
            | Some success => success
            | None => JBool false
            end), w)) /\
  (forall body,
     remote (command_request cfg "reload_machine_ui_schema" key) = Replies body ->
     type_name body <> "dict" ->
     reload_schema cfg remote key w =
       (Ok (JBool false),
        eprinted ("Error reloading schema: '" +:+ type_name body
                  +:+ "' object has no attribute 'get'") w)) /\
  (forall msg,
     failure_message (remote (command_request cfg "reload_machine_ui_schema" key))
       = Some msg ->
     reload_schema cfg remote key w =
       (Ok (JBool false), eprinted ("Error reloading schema: " +:+ msg) w)) /\
  (exists reloaded w',
     reload_schema cfg remote key w = (Ok reloaded, w') /\
     files w' = files w /\ stdout w' = stdout w).
Proof.
  rewrite reload_schema_run. repeat split.
  - by intros members ->.
  - intros body -> Hty. by destruct body.
  - intros msg H. by destruct (remote _); simplify_eq/=.
  - destruct (remote _) as [msg|msg|msg|body]; try (by eexists _, _).
    destruct (py_get body "success" (JBool false)); by eexists _, _.
Qed.

(** X4: [save_schema] never raises and touches no file but the schema file
    of its key.  It returns [True] exactly when the file can be opened for
    writing and [json.dump] writes the whole document; the file then holds
    the rendering of the document.  When the file cannot be opened nothing
    changes; when [json.dump] stops on the way the file is left with what
    was written until then.  Either failure puts one line on standard
    error. *)
Theorem save_schema_outcomes cfg dump_fault key doc w :
  exists saved w',
    save_schema cfg dump_fault key doc w = (Ok saved, w') /\
    (saved = true <->
     unwritable w !! schema_path cfg key = None /\ dump_fault doc = None) /\
    stdout w' = stdout w /\
    (forall path, path <> schema_path cfg key -> files w' !! path = files w !! path) /\
    (saved = true ->
     files w' !! schema_path cfg key = Some (dumps doc) /\ stderr w' = stderr w) /\
    (forall msg,
       unwritable w !! schema_path cfg key = Some msg ->
       files w' = files w /\
       stderr w' = stderr w ++ ["Error saving schema: " +:+ msg]) /\
    (forall begun e,
       unwritable w !! schema_path cfg key = None ->
       dump_fault doc = Some (begun, e) ->
       files w' !! schema_path cfg key = Some begun /\
       stderr w' = stderr w ++ ["Error saving schema: " +:+ exn_str e]).
Proof.
  rewrite save_schema_run.
  destruct (unwritable w !! schema_path cfg key) as [msg|] eqn:Hu;
    [|destruct (dump_fault doc) as [[begun e]|] eqn:Hf];
    eexists _, _; (split; [reflexivity|]);
    cbn [files stdout stderr eprinted written].
  - split; [split; [discriminate|by intros [? _]]|]. split; [done|].
    split; [done|]. split; [discriminate|]. split; [by intros ? [= <-]|done].
  - split; [split; [discriminate|by intros [_ ?]]|]. split; [done|].
    split; [by intros path Hne; rewrite lookup_insert_ne|].
    split; [discriminate|]. split; [done|].
    intros ? ? _ [= <- <-]. split; [apply lookup_insert_eq|done].
  - split; [done|]. split; [done|].
    split; [by intros path Hne; rewrite lookup_insert_ne|].
    split; [intros _; split; [apply lookup_insert_eq|done]|]. split; done.
Qed.

(** X5: for machine types that are plain file names (no slash), saving
    the schema of one changes neither what loading the schema of another
    returns nor what loading any test result returns, whether the save
    goes through, cannot open the file or stops on the way. *)
Theorem save_schema_leaves_other_keys cfg dump_fault key doc w other :
  has_char "/" key = false -> has_char "/" other = false ->
  let w' := snd (save_schema cfg dump_fault key doc w) in
  (other <> key -> fst (load_schema cfg other w') = fst (load_schema cfg other w)) /\
  fst (load_test_results cfg other w') = fst (load_test_results cfg other w).
Proof.
  intros _ _. cbn zeta.
  rewrite save_schema_run, !load_schema_stored, !load_test_results_stored.
  assert (forall text, other <> key ->
            stored (schema_path cfg other) (written (schema_path cfg key) text w)
            = stored (schema_path cfg other) w) as Hschema.
  { intros text Hne. rewrite stored_written_other; [done|].
    intros H. by apply schema_path_inj in H. }
  assert (forall text,
            stored (result_path cfg other) (written (schema_path cfg key) text w)
            = stored (result_path cfg other) w) as Hresult.
  { intros text. rewrite stored_written_other; [done|]. intros H. symmetry in H.
    by apply result_path_not_schema_path in H. }
  destruct (unwritable w !! schema_path cfg key); cbn [snd fst]; [done|].
  destruct (dump_fault doc) as [[begun e]|]; cbn [snd fst].
  - rewrite !stored_eprinted. split; [intros Hne; by rewrite Hschema|by rewrite Hresult].
  - split; [intros Hne; by rewrite Hschema|by rewrite Hresult].
Qed.

(** ** The rule list *)

(** X6: which lower-cased errors get an entry, and what every entry looks
    like. *)
Theorem fix_for_decision_table cfg key error_lower :
  (fix_for cfg key error_lower = None <->
   contains "not found" error_lower = false /\
   (if contains "validation failed" error_lower || contains "missing" error_lower
    then contains "header" error_lower = false /\
         contains "process" error_lower && contains "label" error_lower = false
    else contains "invalid" error_lower = false /\
         contains "flow" error_lower = false)) /\
  (forall entry, fix_for cfg key error_lower = Some entry -> is_fix_entry entry).
Proof.
  unfold fix_for, is_fix_entry.
  destruct (contains "not found" error_lower) eqn:H1.
  { cbn [orb]. split; [split; [discriminate|by intros [? _]]|].
    intros entry [= <-]. eexists _, _, _, _. split; [reflexivity|].
    split; [by left|]. split; discriminate. }
  rewrite (no_file_not_found _ H1). cbn [orb].
  destruct (contains "validation failed" error_lower || contains "missing" error_lower).
  - destruct (contains "header" error_lower).
    { split; [split; [discriminate|by intros [_ [? _]]]|].
      intros entry [= <-]. eexists _, _, _, _. split; [reflexivity|].
      split; [by left|]. split; discriminate. }
    destruct (contains "process" error_lower && contains "label" error_lower).
    { split; [split; [discriminate|by intros [_ [_ ?]]]|].
      intros entry [= <-]. eexists _, _, _, _. split; [reflexivity|].
      split; [by left|]. split; discriminate. }
    split; [done|discriminate].
  - destruct (contains "invalid" error_lower); cbn [orb].
    { split; [split; [discriminate|by intros [_ [? _]]]|].
      intros entry [= <-]. eexists _, _, _, _. split; [reflexivity|].
      split; [by right|]. done. }
    destruct (contains "flow" error_lower).
    { split; [split; [discriminate|by intros [_ [_ ?]]]|].
      intros entry [= <-]. eexists _, _, _, _. split; [reflexivity|].
      split; [by right|]. done. }
    split; [done|discriminate].
Qed.

Lemma fix_for_entry cfg key error_lower entry :
  fix_for cfg key error_lower = Some entry -> is_fix_entry entry.
Proof.
  unfold fix_for, is_fix_entry.
  repeat match goal with
         | |- context [if ?b then _ else _] => destruct b
         end;
    intros [= <-]; eexists _, _, _, _; (split; [reflexivity|]);
    (split; [(by left) || (by right)|]); done.
Qed.

Lemma suggested_entries cfg key es : Forall is_fix_entry (suggested cfg key es).
Proof.
  induction es as [|e es IH]; [constructor|].
  rewrite suggested_cons. destruct (fix_for cfg key (lower e)) eqn:E; [|done].
  constructor; [by eapply fix_for_entry|done].
Qed.

(** ** The layout of the prompt *)

Lemma add_bullets_strings items : forall prompt,
  add_bullets prompt (JStr <$> items) = prompt +:+ bullets items.
Proof.
  unfold add_bullets. induction items as [|item items IH]; intros prompt.
  - by rewrite app_empty_r.
  - rewrite fmap_cons. cbn [fold_left bullets fold_right py_str].
    rewrite IH. by rewrite !app_assoc_s.
Qed.

Lemma entry_members issue action priority extra d :
  let entry := JObj (("issue", issue) :: ("action", action)
                     :: ("priority", priority) :: extra) in
  (py_getitem entry "issue" = Ok issue /\ field entry "issue" d = issue) /\
  (py_getitem entry "action" = Ok action /\ field entry "action" d = action) /\
  (py_getitem entry "priority" = Ok priority /\ field entry "priority" d = priority).
Proof. repeat split. Qed.

Lemma add_fixes_entries fixes : forall prompt,
  Forall is_fix_entry fixes -> add_fixes prompt fixes = Ok (prompt +:+ fix_lines fixes).
Proof.
  induction fixes as [|entry fixes IH]; intros prompt Hall.
  - by rewrite app_empty_r.
  - apply Forall_cons_1 in Hall as [(issue & action & priority & extra & -> & _) Hall].
    destruct (entry_members (JStr issue) (JStr action) (JStr priority) extra JNull)
      as ((Hi & Hi') & (Ha & Ha') & (Hp & Hp')).
    cbn [add_fixes fix_lines fold_right]. rewrite Hi, Ha, Hp, Hi', Ha', Hp'.
    cbn [rbind py_str]. rewrite (IH _ Hall). by rewrite !app_assoc_s.
Qed.

Lemma truthy_strings (items : list string) :
  truthy (JList (JStr <$> items)) = match items with [] => false | _ => true end.
Proof. by destruct items. Qed.

Lemma render_prompt_typed cfg key tr snippet schema errors warnings :
  field tr "errors" (JList []) = JList (JStr <$> errors) ->
  field tr "warnings" (JList []) = JList (JStr <$> warnings) ->
  render_prompt key (with_snippet cfg key tr snippet) schema
  = Ok (prompt_text cfg key errors warnings schema).
Proof.
  intros He Hw. unfold render_prompt, with_snippet. rewrite He, Hw, strings_of_strings.
  cbn [py_get py_getitem dict_lookup rbind]. 
  repeat match goal with
         | |- context [String.eqb ?a ?b] =>
             let v := eval vm_compute in (String.eqb a b) in
             change (String.eqb a b) with v
         end.
  cbv iota beta. rewrite !truthy_strings. unfold prompt_text, prompt_section.
  assert (truthy (JList (suggested cfg key errors))
          = match suggested cfg key errors with [] => false | _ => true end) as ->
    by reflexivity.
  pose proof (suggested_entries cfg key errors) as Hfix.
  set (fixes := suggested cfg key errors) in *. clearbody fixes.
  destruct errors as [|e es]; destruct warnings as [|x xs]; destruct fixes as [|f fs];
    cbn [rbind py_iter py_str];
    rewrite ?add_bullets_strings; rewrite ?(add_fixes_entries _ _ Hfix);
    cbn [rbind py_str];
    by rewrite ?app_assoc_s, ?app_empty_l, ?app_empty_r.
Qed.

Lemma typed_lists tr :
  is_test_result tr = true ->
  field tr "errors" (JList []) = JList (JStr <$> strings_of (field tr "errors" (JList []))) /\
  field tr "warnings" (JList [])
    = JList (JStr <$> strings_of (field tr "warnings" (JList []))).
Proof.
  destruct tr as [| | | | |members]; try discriminate. unfold is_test_result.
  destruct (dict_lookup members "success") as [[]|]; try discriminate.
  intros [He Hw]%andb_true_iff. cbn [field]. split.
  - destruct (dict_lookup members "errors") as [[]|]; try discriminate; [|reflexivity].
    f_equal. by apply all_strings.
  - destruct (dict_lookup members "warnings") as [[]|]; try discriminate; [|reflexivity].
    f_equal. by apply all_strings.
Qed.

Lemma generate_llm_prompt_typed cfg key w tr schema :
  stored (result_path cfg key) w = Some tr -> is_test_result tr = true ->
  stored (schema_path cfg key) w = Some schema -> is_schema schema = true ->
  generate_llm_prompt cfg key w =
  (Ok (prompt_text cfg key (strings_of (field tr "errors" (JList [])))
         (strings_of (field tr "warnings" (JList []))) schema), w).
Proof.
  intros Hr Hwf Hs Hswf. unfold generate_llm_prompt.
  rewrite (bind_ok _ _ _ _ _ (get_fix_suggestions_stored _ _ _ _ _ Hr Hwf Hs Hswf)).
  rewrite bind_unfold, load_schema_stored, Hs.
  destruct (typed_lists _ Hwf) as [He Hw]. unfold lift, suggestions_for.
  by rewrite (render_prompt_typed _ _ _ _ _ _ _ He Hw).
Qed.

(** ** Occurrences *)

Lemma prefix_app_refl needle rest : String.prefix needle (needle +:+ rest) = true.
Proof.
  induction needle as [|c needle IH]; [by destruct rest|].
  by rewrite app_cons, prefix_cons, Ascii.eqb_refl.
Qed.

Lemma prefix_app_more needle : forall s rest,
  String.prefix needle s = true -> String.prefix needle (s +:+ rest) = true.
Proof.
  induction needle as [|c needle IH]; intros s rest H; [by destruct (s +:+ rest)|].
  destruct s as [|y s]; [discriminate|].
  rewrite prefix_cons in H. apply andb_true_iff in H as [Hc H].
  rewrite app_cons, prefix_cons, Hc. by apply IH.
Qed.

Lemma contains_app_r needle s rest :
  contains needle rest = true -> contains needle (s +:+ rest) = true.
Proof.
  intros H. induction s as [|c s IH]; [done|].
  rewrite app_cons. cbn [contains]. rewrite IH. apply orb_true_r.
Qed.

Lemma contains_app_l needle s rest :
  contains needle s = true -> contains needle (s +:+ rest) = true.
Proof.
  induction s as [|c s IH]; cbn [contains].
  - rewrite orb_false_r. intros H. destruct needle; [|discriminate].
    by destruct rest.
  - intros [H|H]%orb_true_iff; rewrite app_cons; cbn [contains].
    + rewrite <- app_cons, (prefix_app_more _ _ _ H). done.
    + rewrite (IH H). apply orb_true_r.
Qed.

Lemma contains_here needle rest : contains needle (needle +:+ rest) = true.
Proof.
  destruct (needle +:+ rest) eqn:E; cbn [contains]; rewrite <- E, prefix_app_refl; done.
Qed.

Lemma bullets_cons item items :
  bullets (item :: items) = ("- " +:+ item +:+ LF) +:+ bullets items.
Proof. unfold bullets. cbn [fold_right]. by rewrite !app_assoc_s. Qed.

Lemma contains_bullet item items :
  item ∈ items -> contains ("- " +:+ item +:+ LF) (bullets items) = true.
Proof.
  induction items as [|x items IH]; [by intros ?%elem_of_nil|].
  rewrite bullets_cons. intros [->|Hin]%elem_of_cons.
  - apply contains_here.
  - by apply contains_app_r, IH.
Qed.

Lemma prompt_section_listed {A} heading (item : A) items lines :
  item ∈ items ->
  prompt_section heading items lines = heading +:+ LF +:+ lines +:+ LF.
Proof. destruct items; [by intros ?%elem_of_nil|done]. Qed.

(** X7: for a stored test result and a schema document the prompt generator
    returns the title, one section for each non-empty list and the schema
    block, in this order; every error and every warning has its bullet
    line under its heading. *)
Theorem prompt_lists_errors_and_warnings cfg key w tr schema :
  stored (result_path cfg key) w = Some tr -> is_test_result tr = true ->
  stored (schema_path cfg key) w = Some schema -> is_schema schema = true ->
  let errors := strings_of (field tr "errors" (JList [])) in
  let warnings := strings_of (field tr "warnings" (JList [])) in
  exists prompt,
    generate_llm_prompt cfg key w = (Ok prompt, w) /\
    prompt = prompt_text cfg key errors warnings schema /\
    (forall error, error ∈ errors ->
       contains ("### Errors:" +:+ LF) prompt = true /\
       contains ("- " +:+ error +:+ LF) prompt = true) /\
    (forall warning, warning ∈ warnings ->
       contains ("### Warnings:" +:+ LF) prompt = true /\
       contains ("- " +:+ warning +:+ LF) prompt = true).
Proof.
  intros Hr Hwf Hs Hswf errors warnings. eexists.
  split; [by apply generate_llm_prompt_typed|]. split; [reflexivity|].
  fold errors warnings. unfold prompt_text. split.
  - intros error Hin. rewrite (prompt_section_listed _ _ _ _ Hin).
    split; apply contains_app_r, contains_app_l.
    + rewrite <- app_assoc_s. apply contains_here.
    + apply contains_app_r, contains_app_r, contains_app_l. by apply contains_bullet.
  - intros warning Hin. rewrite (prompt_section_listed "### Warnings:" _ _ _ Hin).
    split; apply contains_app_r, contains_app_r, contains_app_l.
    + rewrite <- app_assoc_s. apply contains_here.
    + apply contains_app_r, contains_app_r, contains_app_l. by apply contains_bullet.
Qed.

(** ** The workflows in full *)

Lemma schema_file_of_suggestions cfg key test_result schema :
  py_getitem (suggestions_for cfg key test_result schema) "schema_file"
  = Ok (JStr (schema_path cfg key)).
Proof. reflexivity. Qed.

Lemma run_fix_workflow_with_result cfg remote key w test_result flag w1 tr schema :
  test_schema cfg remote key
    (printed "1. Testing current schema..."
       (printed ("Running fix workflow for: " +:+ key) w)) = (Ok test_result, w1) ->
  py_get test_result "success" JNull = Ok flag -> truthy flag = false ->
  stored (result_path cfg key) w1 = Some tr -> is_test_result tr = true ->
  stored (schema_path cfg key) w1 = Some schema -> is_schema schema = true ->
  unwritable w1 !! prompt_path cfg key = None ->
  exists w',
    run_fix_workflow cfg remote key w = (Ok (fix_report cfg key tr schema), w') /\
    files w' =
      <[prompt_path cfg key :=
          prompt_text cfg key (strings_of (field tr "errors" (JList [])))
            (strings_of (field tr "warnings" (JList []))) schema]> (files w1) /\
    stderr w' = stderr w1.
Proof.
  intros Htest Hget Hflag Hr Hwf Hs Hswf Hp. eexists. unfold run_fix_workflow.
  rewrite !bind_print, (bind_ok _ _ _ _ _ Htest), bind_lift, Hget, Hflag.
  rewrite bind_print. set (w2 := printed "2. Analyzing issues..." w1).
  rewrite (bind_ok _ _ w2 _ _ (get_fix_suggestions_stored cfg key w2 tr schema Hr Hwf Hs Hswf)).
  rewrite bind_print. set (w3 := printed "3. Generating fix prompt..." w2).
  rewrite (bind_ok _ _ w3 _ _ (generate_llm_prompt_typed cfg key w3 tr schema Hr Hwf Hs Hswf)).
  rewrite bind_unfold. unfold write_text.
  change (unwritable w3) with (unwritable w1). rewrite Hp.
  rewrite !bind_print, bind_lift, schema_file_of_suggestions.
  rewrite !bind_print, bind_lift.
  split; [reflexivity|]. split; reflexivity.
Qed.

Lemma stored_printed path text w : stored path (printed text w) = stored path w.
Proof. reflexivity. Qed.

(** X8: the fix flow end to end for a fresh failing result. *)
Theorem run_fix_workflow_writes_prompt cfg remote key w tr schema :
  remote (command_request cfg "test_machine_ui_schema" key) = Replies tr ->
  is_test_result tr = true -> distinct_keys tr = true ->
  truthy (field tr "success" JNull) = false ->
  unwritable w !! result_path cfg key = None ->
  unwritable w !! prompt_path cfg key = None ->
  stored (schema_path cfg key) w = Some schema -> is_schema schema = true ->
  exists w',
    run_fix_workflow cfg remote key w = (Ok (fix_report cfg key tr schema), w') /\
    files w' !! prompt_path cfg key =
      Some (prompt_text cfg key (strings_of (field tr "errors" (JList [])))
              (strings_of (field tr "warnings" (JList []))) schema) /\
    files w' !! result_path cfg key = Some (dumps tr) /\
    (forall path, path <> prompt_path cfg key -> path <> result_path cfg key ->
                  files w' !! path = files w !! path) /\
    stderr w' = stderr w.
Proof.
  intros Hreply Hwf Hd Hflag Hwr Hwp Hs Hswf.
  set (w0 := printed "1. Testing current schema..."
               (printed ("Running fix workflow for: " +:+ key) w)).
  assert (test_schema cfg remote key w0
          = (Ok tr, written (result_path cfg key) (dumps tr) w0)) as Htest.
  { rewrite test_schema_run, Hreply. change (unwritable w0) with (unwritable w).
    by rewrite Hwr. }
  destruct (run_fix_workflow_with_result cfg remote key w tr
              (field tr "success" JNull) _ tr schema Htest)
    as (w' & Hrun & Hfiles & Herr); try done.
  - by destruct tr.
  - by rewrite stored_written, (loads_dumps _ Hd).
  - rewrite stored_written_other; [done|apply result_path_not_schema_path].
  - exists w'. split; [exact Hrun|]. rewrite Hfiles. cbn [files written w0 printed].
    split; [apply lookup_insert_eq|]. split; [|split; [|done]].
    + rewrite lookup_insert_ne by apply prompt_path_not_result_path.
      apply lookup_insert_eq.
    + intros path H1 H2. by rewrite !lookup_insert_ne.
Qed.

(** X9: the fix flow when the service is down but an earlier result is
    stored: the prompt is built from the earlier result. *)
Theorem run_fix_workflow_uses_stored_result cfg remote key w msg tr schema :
  failure_message (remote (command_request cfg "test_machine_ui_schema" key)) = Some msg ->
  stored (result_path cfg key) w = Some tr -> is_test_result tr = true ->
  stored (schema_path cfg key) w = Some schema -> is_schema schema = true ->
  unwritable w !! prompt_path cfg key = None ->
  exists w',
    run_fix_workflow cfg remote key w = (Ok (fix_report cfg key tr schema), w') /\
    files w' =
      <[prompt_path cfg key :=
          prompt_text cfg key (strings_of (field tr "errors" (JList [])))
            (strings_of (field tr "warnings" (JList []))) schema]> (files w) /\
    stderr w' = stderr w.
Proof.
  intros Hfail Hr Hwf Hs Hswf Hwp.
  set (w1 := printed "1. Testing current schema..."
               (printed ("Running fix workflow for: " +:+ key) w)).
  apply (run_fix_workflow_with_result cfg remote key w (failed_test msg) (JBool false) w1);
    try done.
  by apply test_schema_fails.
Qed.

(** X10: the fix flow stops early when the test passes. *)
Theorem run_fix_workflow_already_valid cfg remote key w members :
  remote (command_request cfg "test_machine_ui_schema" key) = Replies (JObj members) ->
  truthy (field (JObj members) "success" JNull) = true ->
  unwritable w !! result_path cfg key = None ->
  exists w',
    run_fix_workflow cfg remote key w =
      (Ok (JObj [("success", JBool true); ("message", JStr "No fixes needed")]), w') /\
    files w' = <[result_path cfg key := dumps (JObj members)]> (files w) /\
    stdout w' = stdout w ++ ["Running fix workflow for: " +:+ key;
                             "1. Testing current schema...";
                             "✓ Schema for " +:+ key +:+ " is already valid!"] /\
    stderr w' = stderr w.
Proof.
  intros Hreply Hflag Hwr. eexists. unfold run_fix_workflow.
  rewrite !bind_print, bind_unfold, test_schema_run, Hreply.
  cbn [unwritable printed]. rewrite Hwr.
  rewrite bind_lift. cbn [py_get]. cbn [field] in Hflag. rewrite Hflag.
  rewrite bind_print. split; [reflexivity|]. cbn [files stdout stderr written printed].
  split; [reflexivity|]. split; [|reflexivity]. by rewrite <- !app_assoc.
Qed.

(** [for error in errors: print(f"  - {error}")] as a change of the world *)
Lemma print_errors_run items : forall w,
  print_errors items w =
  (Ok (), World (files w) (unwritable w)
            (stdout w ++ ((fun error => "  - " +:+ py_str error) <$> items)) (stderr w)).
Proof.
  induction items as [|item items IH]; intros w.
  - cbn [print_errors fmap list_fmap]. rewrite app_nil_r. by destruct w.
  - cbn [print_errors]. rewrite bind_print, IH. cbn [files unwritable stdout stderr printed].
    by rewrite fmap_cons, <- app_assoc.
Qed.

(** X11: the verify flow when the test does not pass. *)
Theorem verify_fix_reports_errors cfg remote key w test_result w1 success errors items :
  test_schema cfg remote key (printed ("Verifying fix for: " +:+ key) w)
    = (Ok test_result, w1) ->
  py_get test_result "success" JNull = Ok success -> truthy success = false ->
  py_get test_result "errors" (JList []) = Ok errors -> py_iter errors = Ok items ->
  exists w',
    verify_fix cfg remote key w =
      (Ok (JObj [("success", JBool false); ("test_result", test_result)]), w') /\
    stdout w' = stdout w1 ++ "✗ Schema still has issues:"
                  :: ((fun error => "  - " +:+ py_str error) <$> items) /\
    stderr w' = stderr w1 /\ files w' = files w1.
Proof.
  intros Htest Hget Hflag Herrors Hiter. eexists. unfold verify_fix.
  rewrite bind_print, (bind_ok _ _ _ _ _ Htest), bind_lift, Hget, Hflag.
  rewrite bind_print, bind_lift, Herrors, bind_lift, Hiter.
  rewrite bind_unfold, print_errors_run. cbn [files unwritable stdout stderr printed].
  split; [reflexivity|]. cbn [files stdout stderr]. split; [|done].
  by rewrite <- app_assoc.
Qed.

(** X12: a reply that is JSON but no object is stored and then breaks both
    flows. *)
Theorem workflows_need_an_object cfg remote key w body :
  remote (command_request cfg "test_machine_ui_schema" key) = Replies body ->
  type_name body <> "dict" ->
  unwritable w !! result_path cfg key = None ->
  (exists w',
     run_fix_workflow cfg remote key w = (Raise (no_attribute body "get"), w') /\
     files w' !! result_path cfg key = Some (dumps body)) /\
  (exists w',
     verify_fix cfg remote key w = (Raise (no_attribute body "get"), w') /\
     files w' !! result_path cfg key = Some (dumps body)).
Proof.
  intros Hreply Hty Hwr.
  assert (py_get body "success" JNull = Raise (no_attribute body "get")) as Hget
    by by destruct body.
  split; eexists.
  - unfold run_fix_workflow.
    rewrite !bind_print, bind_unfold, test_schema_run, Hreply.
    cbn [unwritable printed]. rewrite Hwr, bind_lift, Hget.
    split; [reflexivity|]. apply lookup_insert_eq.
  - unfold verify_fix.
    rewrite !bind_print, bind_unfold, test_schema_run, Hreply.
    cbn [unwritable printed]. rewrite Hwr, bind_lift, Hget.
    split; [reflexivity|]. apply lookup_insert_eq.
Qed.

(** ** Data that breaks the generator *)

(** X13: a file that is not JSON makes every reader raise
    [JSONDecodeError]; the world stays as it was.  The text is one that
    holds none of the marks of JSON outside the embedding, so that it is
    not JSON for [json.load] either, and one that [json.load] reads to the
    place where it goes wrong. *)
Theorem malformed_file_propagates cfg key w text :
  loads text = None -> beyond_model text = false -> within_limits text = true ->
  (files w !! result_path cfg key = Some text ->
   load_test_results cfg key w = (Raise JSONDecodeError, w) /\
   get_fix_suggestions cfg key w = (Raise JSONDecodeError, w) /\
   generate_llm_prompt cfg key w = (Raise JSONDecodeError, w)) /\
  (files w !! schema_path cfg key = Some text ->
   load_schema cfg key w = (Raise JSONDecodeError, w) /\
   get_fix_suggestions cfg key w = (Raise JSONDecodeError, w) /\
   generate_llm_prompt cfg key w = (Raise JSONDecodeError, w)).
Proof.
  intros Hbad _ _. split; intros Hfile.
  - assert (load_test_results cfg key w = (Raise JSONDecodeError, w)) as Hload.
    { rewrite load_test_results_stored. unfold stored. by rewrite Hfile, Hbad. }
    assert (get_fix_suggestions cfg key w = (Raise JSONDecodeError, w)) as Hget.
    { unfold get_fix_suggestions. by rewrite (bind_raise _ _ _ _ _ Hload). }
    split; [done|]. split; [done|].
    unfold generate_llm_prompt. by rewrite (bind_raise _ _ _ _ _ Hget).
  - assert (load_schema cfg key w = (Raise JSONDecodeError, w)) as Hload.
    { rewrite load_schema_stored. unfold stored. by rewrite Hfile, Hbad. }
    assert (get_fix_suggestions cfg key w = (Raise JSONDecodeError, w)) as Hget.
    { unfold get_fix_suggestions. rewrite bind_unfold, load_test_results_stored.
      destruct (stored (result_path cfg key) w); [|done].
      by rewrite (bind_raise _ _ _ _ _ Hload). }
    split; [done|]. split; [done|].
    unfold generate_llm_prompt. by rewrite (bind_raise _ _ _ _ _ Hget).
Qed.

Lemma analyze_errors_bad_item cfg key before bad after : forall fixes,
  is_string bad = false ->
  analyze_errors cfg key ((JStr <$> before) ++ bad :: after) fixes
  = Raise (no_attribute bad "lower").
Proof.
  induction before as [|e before IH]; intros fixes Hbad.
  - cbn [fmap list_fmap app analyze_errors]. by destruct bad.
  - rewrite fmap_cons. cbn [app analyze_errors py_lower rbind]. by apply IH.
Qed.

(** X14: an entry of [errors] that is no string stops the generator with
    [AttributeError], at the first such entry. *)
Theorem error_items_must_be_strings cfg key w members schema before bad after :
  stored (result_path cfg key) w = Some (JObj members) ->
  dict_lookup members "errors" = Some (JList ((JStr <$> before) ++ bad :: after)) ->
  is_string bad = false ->
  stored (schema_path cfg key) w = Some schema ->
  get_fix_suggestions cfg key w = (Raise (no_attribute bad "lower"), w).
Proof.
  intros Hr He Hbad Hs. unfold get_fix_suggestions.
  rewrite bind_unfold, load_test_results_stored, Hr.
  rewrite bind_unfold, load_schema_stored, Hs.
  assert (truthy (JObj members) = true) as -> by (by destruct members).
  cbn [negb py_get]. rewrite He, !bind_lift. cbn [py_iter].
  by rewrite bind_lift, analyze_errors_bad_item.
Qed.

(** X15: a schema whose [groups] has no length stops the generator with
    [TypeError], although the test result is in order. *)
Theorem groups_must_be_sized cfg key w tr members groups :
  stored (result_path cfg key) w = Some tr -> is_test_result tr = true ->
  stored (schema_path cfg key) w = Some (JObj members) ->
  dict_lookup members "groups" = Some groups ->
  type_name groups ∈ ["NoneType"; "bool"; "int"] ->
  get_fix_suggestions cfg key w =
  (Raise (TypeError ("object of type '" +:+ type_name groups +:+ "' has no len()")), w).
Proof.
  intros Hr Hwf Hs Hg Hty. rewrite (get_fix_suggestions_run _ _ _ _ Hr Hwf), Hs.
  assert (truthy (JObj members) = true) as -> by (by destruct members).
  unfold schema_snippet. cbn [py_get rbind]. rewrite Hg.
  destruct groups; try reflexivity; exfalso; revert Hty; cbn [type_name];
    rewrite !elem_of_cons, elem_of_nil; intros [?|[?|[?|[]]]]; discriminate.
Qed.

(** ** Reading does not write *)

Lemma read_only_ret {A} (a : A) : read_only (mret a).
Proof. by intros w. Qed.

Lemma read_only_lift {A} (r : result A) : read_only (lift r).
Proof. by intros w. Qed.

Lemma read_only_bind {A B} (m : M A) (k : A -> M B) :
  read_only m -> (forall a, read_only (k a)) -> read_only (m ≫= k).
Proof.
  intros Hm Hk w. rewrite bind_unfold. specialize (Hm w).
  destruct (m w) as [[a|e] w']; cbn [snd] in *; subst w'; [apply Hk|done].
Qed.

Lemma read_only_load_test_results cfg key : read_only (load_test_results cfg key).
Proof. intros w. by rewrite load_test_results_stored. Qed.

Lemma read_only_load_schema cfg key : read_only (load_schema cfg key).
Proof. intros w. by rewrite load_schema_stored. Qed.

Lemma read_only_get_fix_suggestions cfg key : read_only (get_fix_suggestions cfg key).
Proof.
  unfold get_fix_suggestions.
  apply read_only_bind; [apply read_only_load_test_results|]. intros test_result.
  apply read_only_bind; [apply read_only_load_schema|]. intros schema.
  destruct (negb (truthy test_result)); [apply read_only_ret|].
  repeat (apply read_only_bind; [apply read_only_lift|intros ?]).
  apply read_only_bind; [|intros ?; apply read_only_ret].
  destruct (truthy schema); [apply read_only_lift|apply read_only_ret].
Qed.

(** X16: the loaders, the suggestion generator and the prompt generator only
    read: whatever the files hold and whether they return or raise, the
    world afterwards is the world before. *)
Theorem analysis_is_read_only cfg key :
  read_only (load_test_results cfg key) /\
  read_only (load_schema cfg key) /\
  read_only (get_fix_suggestions cfg key) /\
  read_only (generate_llm_prompt cfg key).
Proof.
  split; [apply read_only_load_test_results|].
  split; [apply read_only_load_schema|].
  split; [apply read_only_get_fix_suggestions|].
  unfold generate_llm_prompt.
  apply read_only_bind; [apply read_only_get_fix_suggestions|]. intros suggestions.
  apply read_only_bind; [apply read_only_load_schema|]. intros schema.
  apply read_only_lift.
Qed.

(** ** The command line *)

Lemma init_ok {B} (k : () -> M B) w : (__init__ None ≫= k) w = k () w.
Proof. reflexivity. Qed.

Lemma exit_on_object members w :
  exit_on (JObj members) w =
  (Ok (if truthy (field (JObj members) "success" JNull) then 0 else 1), w).
Proof. reflexivity. Qed.

(** X17: command lines that do no work.  Without a command the usage text is
    printed; a command without machine type, and an unknown command with
    whatever arguments, get one line each.  The status is 1, no file is
    touched.  The first check precedes the creation of the output
    directory, the other two follow it: when the directory cannot be made
    they are not reached. *)
Theorem main_rejects_incomplete_command_lines cfg remote mkdir_error argv w :
  ((length argv < 2)%nat ->
   main cfg remote mkdir_error argv w = (Ok 1, printed usage w)) /\
  (forall prog command,
     mkdir_error = None -> command ∈ ["fix"; "verify"; "test"] ->
     main cfg remote mkdir_error [prog; command] w
     = (Ok 1, printed "Error: machine_type required" w)) /\
  (forall prog command args,
     mkdir_error = None -> command ∉ ["fix"; "verify"; "test"] ->
     main cfg remote mkdir_error (prog :: command :: args) w
     = (Ok 1, printed ("Unknown command: " +:+ command) w)) /\
  (forall prog command args msg,
     mkdir_error = Some msg ->
     main cfg remote mkdir_error (prog :: command :: args) w = (Raise (OSError msg), w)).
Proof.
  repeat split.
  - intros Hlen. destruct argv as [|prog [|command args]]; [done|done|]. simpl in Hlen. lia.
  - intros prog command -> Hin. unfold main. rewrite init_ok.
    rewrite !elem_of_cons, elem_of_nil in Hin.
    destruct Hin as [->|[->|[->|[]]]]; reflexivity.
  - intros prog command args -> Hout. unfold main. rewrite init_ok.
    rewrite !elem_of_cons, elem_of_nil in Hout.
    destruct (String.eqb_spec command "fix") as [->|_]; [tauto|].
    destruct (String.eqb_spec command "verify") as [->|_]; [tauto|].
    destruct (String.eqb_spec command "test") as [->|_]; [tauto|].
    reflexivity.
  - intros prog command args msg ->. reflexivity.
Qed.

(** X18: the exit status of the three commands.  When the method returns an
    object the status is 0 if its [success] member is truthy and 1
    otherwise; [test] prints the rendering of the object first.  Arguments
    after the machine type are ignored. *)
Theorem main_exit_status cfg remote key prog extra w members w1 :
  (run_fix_workflow cfg remote key w = (Ok (JObj members), w1) ->
   main cfg remote None (prog :: "fix" :: key :: extra) w
   = (Ok (if truthy (field (JObj members) "success" JNull) then 0 else 1), w1)) /\
  (verify_fix cfg remote key w = (Ok (JObj members), w1) ->
   main cfg remote None (prog :: "verify" :: key :: extra) w
   = (Ok (if truthy (field (JObj members) "success" JNull) then 0 else 1), w1)) /\
  (test_schema cfg remote key w = (Ok (JObj members), w1) ->
   main cfg remote None (prog :: "test" :: key :: extra) w
   = (Ok (if truthy (field (JObj members) "success" JNull) then 0 else 1),
      printed (dumps (JObj members)) w1)).
Proof.
  repeat split; intros Hrun; unfold main; rewrite init_ok;
    cbn [String.eqb Ascii.eqb Bool.eqb]; cbv iota beta;
    rewrite (bind_ok _ _ _ _ _ Hrun); [reflexivity..|].
  rewrite bind_print. reflexivity.
Qed.

(** ** Witnesses *)

Lemma test_schema_persists_reply_witness :
  exists w',
    test_schema default_config (answering header_result) "furnace" empty_world
      = (Ok header_result, w') /\
    load_test_results default_config "furnace" w' = (Ok header_result, w').
Proof.
  destruct (test_schema_persists_reply default_config (answering header_result)
              "furnace" empty_world header_result)
    as (w' & H1 & H2 & _); [reflexivity..|].
  exists w'. by split.
Defined.

Lemma test_schema_is_contained_witness :
  test_schema default_config (answering passing_result) "furnace" locked_results_world
  = (Ok (failed_test "[Errno 13] Permission denied"), locked_results_world).
Proof.
  destruct (test_schema_is_contained default_config (answering passing_result)
              "furnace" locked_results_world) as [_ H].
  apply (H passing_result); reflexivity.
Defined.

Lemma reload_schema_outcomes_witness :
  reload_schema default_config (answering (JObj [])) "furnace" empty_world
    = (Ok (JBool false), empty_world) /\
  reload_schema default_config (answering (JList [])) "furnace" empty_world
    = (Ok (JBool false),
       eprinted "Error reloading schema: 'list' object has no attribute 'get'"
         empty_world) /\
  reload_schema default_config unreachable "furnace" empty_world
    = (Ok (JBool false),
       eprinted "Error reloading schema: Connection refused" empty_world).
Proof.
  destruct (reload_schema_outcomes default_config (answering (JObj [])) "furnace"
              empty_world) as (H1 & _).
  destruct (reload_schema_outcomes default_config (answering (JList [])) "furnace"
              empty_world) as (_ & H2 & _).
  destruct (reload_schema_outcomes default_config unreachable "furnace"
              empty_world) as (_ & _ & H3 & _).
  split; [apply (H1 []); reflexivity|].
  split; [apply (H2 (JList [])); [reflexivity|discriminate]|].
  apply H3; reflexivity.
Defined.

Lemma save_schema_outcomes_witness :
  exists w',
    save_schema default_config digit_limit "furnace" big_number empty_world
      = (Ok false, w') /\
    files w' !! schema_path default_config "furnace"
      = Some ("{" +:+ LF +:+ "  " +:+ dumps (JStr "n") +:+ ": ").
Proof.
  destruct (save_schema_outcomes default_config digit_limit "furnace" big_number
              empty_world)
    as (saved & w' & Hrun & Hiff & _ & _ & _ & _ & Hfault).
  destruct saved.
  - destruct Hiff as [Hiff _]. destruct (Hiff eq_refl) as [_ H].
    vm_compute in H. discriminate.
  - exists w'. split; [exact Hrun|].
    refine (proj1 (Hfault _ (ValueError _) eq_refl _)). vm_compute. reflexivity.
Defined.

Lemma save_schema_leaves_other_keys_witness :
  fst (load_schema default_config "boiler"
         (snd (save_schema default_config no_fault "furnace" version_one empty_world)))
  = fst (load_schema default_config "boiler" empty_world).
Proof.
  destruct (save_schema_leaves_other_keys default_config no_fault "furnace" version_one
              empty_world "boiler") as [H _]; [reflexivity..|].
  apply H. discriminate.
Defined.

Lemma fix_for_decision_table_witness :
  fix_for default_config "furnace" "timeout while rendering" = None.
Proof.
  destruct (fix_for_decision_table default_config "furnace" "timeout while rendering")
    as [[_ H] _].
  apply H. vm_compute. auto.
Defined.

Lemma prompt_lists_errors_and_warnings_witness :
  exists prompt,
    generate_llm_prompt default_config "furnace" label_world = (Ok prompt, label_world) /\
    contains ("- missing process label" +:+ LF) prompt = true.
Proof.
  destruct (prompt_lists_errors_and_warnings default_config "furnace" label_world
              label_result (JObj []))
    as (prompt & Hrun & _ & Herrors & _); [vm_compute; reflexivity..|].
  exists prompt. split; [exact Hrun|].
  apply (Herrors "missing process label"). vm_compute. repeat constructor.
Defined.

Lemma run_fix_workflow_writes_prompt_witness :
  exists w',
    run_fix_workflow default_config (answering header_result) "furnace" empty_world
      = (Ok (fix_report default_config "furnace" header_result (JObj [])), w') /\
    is_Some (files w' !! prompt_path default_config "furnace").
Proof.
  destruct (run_fix_workflow_writes_prompt default_config (answering header_result)
              "furnace" empty_world header_result (JObj []))
    as (w' & Hrun & Hprompt & _); [vm_compute; reflexivity..|].
  exists w'. split; [exact Hrun|]. rewrite Hprompt. eauto.
Defined.

Lemma run_fix_workflow_uses_stored_result_witness :
  exists w',
    run_fix_workflow default_config unreachable "furnace" header_world
      = (Ok (fix_report default_config "furnace" header_result (JObj [])), w').
Proof.
  destruct (run_fix_workflow_uses_stored_result default_config unreachable "furnace"
              header_world "Connection refused" header_result (JObj []))
    as (w' & Hrun & _); [vm_compute; reflexivity..|].
  by exists w'.
Defined.

Lemma run_fix_workflow_already_valid_witness :
  exists w',
    run_fix_workflow default_config (answering passing_result) "furnace" empty_world
      = (Ok (JObj [("success", JBool true); ("message", JStr "No fixes needed")]), w').
Proof.
  destruct (run_fix_workflow_already_valid default_config (answering passing_result)
              "furnace" empty_world [("success", JBool true)])
    as (w' & Hrun & _); [reflexivity..|].
  by exists w'.
Defined.

Lemma verify_fix_reports_errors_witness :
  exists w',
    verify_fix default_config (answering header_result) "furnace" empty_world
      = (Ok (JObj [("success", JBool false); ("test_result", header_result)]), w') /\
    last (stdout w')
      = Some "  - Schema validation failed: missing header in group 2".
Proof.
  destruct (verify_fix_reports_errors default_config (answering header_result) "furnace"
              empty_world header_result
              (written (result_path default_config "furnace") (dumps header_result)
                 (printed "Verifying fix for: furnace" empty_world))
              (JBool false)
              (JList [JStr "Schema validation failed: missing header in group 2"])
              [JStr "Schema validation failed: missing header in group 2"])
    as (w' & Hrun & Hout & _); [reflexivity..|].
  exists w'. split; [exact Hrun|]. rewrite Hout. reflexivity.
Defined.

Lemma workflows_need_an_object_witness :
  fst (run_fix_workflow default_config (answering (JList [])) "furnace" empty_world)
  = Raise (AttributeError "'list' object has no attribute 'get'").
Proof.
  destruct (workflows_need_an_object default_config (answering (JList [])) "furnace"
              empty_world (JList []))
    as [(w' & -> & _) _]; [reflexivity|discriminate|reflexivity|reflexivity].
Defined.

Lemma malformed_file_propagates_witness :
  get_fix_suggestions default_config "furnace" garbled_world
  = (Raise JSONDecodeError, garbled_world).
Proof.
  destruct (malformed_file_propagates default_config "furnace" garbled_world "{oops")
    as [H _]; [vm_compute; reflexivity..|].
  apply H. reflexivity.
Defined.

Lemma error_items_must_be_strings_witness :
  get_fix_suggestions default_config "furnace" numbered_world
  = (Raise (AttributeError "'int' object has no attribute 'lower'"), numbered_world).
Proof.
  apply (error_items_must_be_strings default_config "furnace" numbered_world
           [("success", JBool false); ("errors", JList [JStr "flow"; JInt 7])]
           (JObj []) ["flow"] (JInt 7) []); vm_compute; reflexivity.
Defined.

Lemma groups_must_be_sized_witness :
  get_fix_suggestions default_config "furnace" odd_schema_world
  = (Raise (TypeError "object of type 'int' has no len()"), odd_schema_world).
Proof.
  apply (groups_must_be_sized default_config "furnace" odd_schema_world header_result
           [("groups", JInt 3)] (JInt 3)); try (vm_compute; reflexivity).
  cbn [type_name]. rewrite !elem_of_cons. auto.
Defined.

Lemma main_rejects_incomplete_command_lines_witness :
  main default_config unreachable None ["automate-machine-ui-fixes.py"] empty_world
    = (Ok 1, printed usage empty_world) /\
  main default_config unreachable None ["automate-machine-ui-fixes.py"; "fix"] empty_world
    = (Ok 1, printed "Error: machine_type required" empty_world) /\
  main default_config unreachable None ["automate-machine-ui-fixes.py"; "repair"; "furnace"]
    empty_world
    = (Ok 1, printed "Unknown command: repair" empty_world).
Proof.
  split; [|split].
  - destruct (main_rejects_incomplete_command_lines default_config unreachable None
                ["automate-machine-ui-fixes.py"] empty_world) as [H _].
    apply H. simpl. lia.
  - destruct (main_rejects_incomplete_command_lines default_config unreachable None
                [] empty_world) as (_ & H & _).
    apply H; [reflexivity|]. rewrite !elem_of_cons. auto.
  - destruct (main_rejects_incomplete_command_lines default_config unreachable None
                [] empty_world) as (_ & _ & H & _).
    apply H; [reflexivity|].
    rewrite !elem_of_cons, elem_of_nil. intros [?|[?|[?|[]]]]; discriminate.
Defined.

Lemma main_exit_status_witness :
  exists w',
    main default_config (answering passing_result) None
      ["automate-machine-ui-fixes.py"; "test"; "furnace"; "ignored"] empty_world
    = (Ok 0, w').
Proof.
  destruct (main_exit_status default_config (answering passing_result) "furnace"
              "automate-machine-ui-fixes.py" ["ignored"] empty_world
              [("success", JBool true)]
              (written (result_path default_config "furnace") (dumps passing_result)
                 empty_world))
    as (_ & _ & H).
  eexists. apply H. reflexivity.
Defined.
